(* ===================================================================== *)
(* near-workspaces, packages/js/dist/runner.js                            *)
(*                                                                        *)
(* A shallow embedding of the `Workspace` facade: the argument            *)
(* classifier `getConfigAndFn`, the static methods `init`,                *)
(* `getNetworkFromEnv`, `networkIsTestnet`, `networkIsSandbox`, and the   *)
(* async instance methods `startWaiting`, `clone` and `cloneSandbox`.     *)
(*                                                                        *)
(* JavaScript values are an inductive type; objects and functions live    *)
(* in a store indexed by locations, so that aliasing and in-place         *)
(* mutation of the caller's configuration object are visible; an object   *)
(* has a prototype, may be non-extensible and may have read-only          *)
(* properties, so that a read goes through the prototype chain and an     *)
(* assignment in strict mode can fail with a TypeError.  Code runs        *)
(* in a state-and-exception monad; a promise is represented by the state  *)
(* it eventually settles in.  The `./runtime` module (WorkspaceContainer) *)
(* is not part of runner.js and is taken as an interface.                 *)
(* ===================================================================== *)

From Stdlib Require Import PrimFloat.
From stdpp Require Import gmap strings list fin_maps.

Open Scope string_scope.
Open Scope list_scope.

(* --------------------------------------------------------------------- *)
(* JavaScript values                                                      *)
(* --------------------------------------------------------------------- *)

Module Js.

(* Store locations of objects and of function objects. *)
Definition loc := positive.

Inductive value :=
| VUndefined
| VNull
| VBool (b : bool)
| VNumber (n : float)
| VBigInt (z : Z)
| VString (s : string)
| VSymbol (id : nat)
| VFunction (l : loc)
| VObject (l : loc).

(* The `typeof` operator. *)
Definition typeof (v : value) : string :=
  match v with
  | VUndefined => "undefined"
  | VNull => "object"
  | VBool _ => "boolean"
  | VNumber _ => "number"
  | VBigInt _ => "bigint"
  | VString _ => "string"
  | VSymbol _ => "symbol"
  | VFunction _ => "function"
  | VObject _ => "object"
  end.

(* `v === 'lit'` for a string literal: true only for that very string. *)
Definition strict_eq_string (v : value) (lit : string) : bool :=
  match v with
  | VString s => String.eqb s lit
  | _ => false
  end.

(* `v !== null && v !== void 0` *)
Definition not_nullish (v : value) : bool :=
  match v with
  | VUndefined | VNull => false
  | _ => true
  end.

(* Thrown values.  An `Error` carries its message; the message of a
   `TypeError` is the engine's and is left out; a rejection coming out of
   the runtime is opaque to this layer. *)
Inductive error :=
| Error (msg : string)
| TypeError
| RuntimeError (code : nat).

(* How a piece of running code completes: normally, by throwing, or not
   at all because it is suspended on a promise that never settles. *)
Inductive completion (A : Type) :=
| Normal (a : A)
| Throw (e : error)
| Blocked.
Arguments Normal {A} a.
Arguments Throw {A} e.
Arguments Blocked {A}.

(* A promise, represented by the state it eventually reaches. *)
Inductive promise (A : Type) :=
| Fulfilled (a : A)
| Rejected (e : error)
| Pending.
Arguments Fulfilled {A} a.
Arguments Rejected {A} e.
Arguments Pending {A}.

End Js.
Import Js.

(* --------------------------------------------------------------------- *)
(* Program state                                                          *)
(* --------------------------------------------------------------------- *)

(* The class WorkspaceContainer is declared in `./runtime`, not in
   runner.js.  Of a container runner.js uses the field `config` and the
   methods `createFrom` and `clone`; the field is kept here, next to an
   identity, and the methods are operations of the interface `Runtime`. *)
Record WorkspaceContainer := mkContainer {
  container_id : nat;
  config : value
}.

(* The points at which the layer talks to its surroundings, in order. *)
Inductive event :=
| EvReadEnv (name : string)
| EvCreate (cfg fn : value)                     (* WorkspaceContainer.create(cfg, fn) *)
| EvAwaitReady                                  (* await this.ready *)
| EvCreateFrom (c : WorkspaceContainer)         (* c.createFrom() *)
| EvAwaitDerived                                (* await of the promise createFrom returned *)
| EvContainerClone (c : WorkspaceContainer) (fn : value)  (* c.clone(fn) *)
| EvAwaitCallback.                              (* await of the promise c.clone returned *)

(* What an ordinary object has besides the values of its own properties:
   its prototype (None stands for the built-in prototype, which defines
   none of the properties runner.js touches), whether properties can be
   added to it, and which of its own properties are not writable.
   Object.preventExtensions clears `extensible`; Object.freeze does so and
   makes every own property read-only.  Properties are data properties:
   accessors and proxies, which run code of their own on a read or an
   assignment, are not represented. *)
Record attributes := mkAttributes {
  proto : option loc;
  extensible : bool;
  readonly : gset string
}.

(* The attributes of an object made by a literal `{}` or a function
   expression. *)
Definition ordinary : attributes := mkAttributes None true ∅.

(* A property that has just been created, or may be assigned, is writable. *)
Definition make_writable (k : string) (a : attributes) : attributes :=
  mkAttributes (proto a) (extensible a) (readonly a ∖ {[k]}).

Section Runner.

(* The state of the runtime module, opaque here. *)
Context {W : Type}.

Record state := mkState {
  heap : gmap loc (gmap string value);   (* own properties of every object *)
  env : gmap string string;              (* process.env *)
  world : W;
  log : list event;
  attrs : gmap loc attributes            (* objects that are not `ordinary` *)
}.

(* The operations runner.js calls on `./runtime`.  Each may change the
   runtime's state and answers with a promise; `create` may look at the
   store (the configuration it is given lives there). *)
Class Runtime := {
  rt_create : gmap loc (gmap string value) -> value -> value -> W -> W * promise WorkspaceContainer;
  rt_createFrom : WorkspaceContainer -> W -> W * promise WorkspaceContainer;
  rt_clone : WorkspaceContainer -> value -> W -> W * promise unit
}.

Definition M (A : Type) : Type := state -> completion A * state.

Definition ret {A} (a : A) : M A := fun s => (Normal a, s).
Definition throw {A} (e : error) : M A := fun s => (Throw e, s).
Definition bind {A B} (m : M A) (k : A -> M B) : M B := fun s =>
  match m s with
  | (Normal a, s') => k a s'
  | (Throw e, s') => (Throw e, s')
  | (Blocked, s') => (Blocked, s')
  end.

(* The state after one more event. *)
Definition logged (e : event) (s : state) : state :=
  mkState (heap s) (env s) (world s) (log s ++ [e]) (attrs s).

Definition emit (e : event) : M unit := fun s => (Normal tt, logged e s).

(* A new store.  A location that was not in the store before comes in as a
   new object: whatever the attribute table held for it is dropped, so it
   is `ordinary`. *)
Definition set_heap (h : gmap loc (gmap string value)) (s : state) : state :=
  mkState h (env s) (world s) (log s)
    (filter (fun la : loc * attributes => la.1 ∈ dom (heap s)) (attrs s)).
Definition set_world (w : W) (s : state) : state :=
  mkState (heap s) (env s) w (log s) (attrs s).
Definition set_env (e : gmap string string) (s : state) : state :=
  mkState (heap s) e (world s) (log s) (attrs s).
Definition set_attrs (a : gmap loc attributes) (s : state) : state :=
  mkState (heap s) (env s) (world s) (log s) a.

End Runner.

Arguments state W : clear implicits.
Arguments Runtime W : clear implicits.
Arguments M W A : clear implicits.

Declare Scope js_scope.
Delimit Scope js_scope with js.
Notation "'let!' x ':=' m 'in' k" := (bind m (fun x => k))
  (at level 10, x pattern, m at level 100, k at level 200) : js_scope.
Notation "'do!' m 'in' k" := (bind m (fun _ => k))
  (at level 10, m at level 100, k at level 200) : js_scope.

(* --------------------------------------------------------------------- *)
(* runner.js                                                              *)
(* --------------------------------------------------------------------- *)

(* An instance of `class Workspace`: the promise `this.ready` and the
   field `this.container`, which is undefined until `startWaiting` has
   stored the container. *)
Record Workspace := mkWorkspace {
  ready : promise unit;
  container : option WorkspaceContainer
}.

Definition NEAR_WORKSPACES_NETWORK : string := "NEAR_WORKSPACES_NETWORK".

Definition read_env : event := EvReadEnv NEAR_WORKSPACES_NETWORK.

Definition invalid_arguments_msg : string :=
  "Invalid arguments! Expected `(config, runFunction)` or just `(runFunction)`".

Definition invalid_network_msg (network : string) : string :=
  String.append "environment variable NEAR_WORKSPACES_NETWORK="
    (String.append network " invalid; use 'testnet' or 'sandbox' (the default)").

Section Code.

Context {W : Type} {RT : Runtime W}.
Local Open Scope js_scope.

(* ---- the object store ---- *)

(* A fresh object (or function object) with no own property. *)
Definition alloc : M W loc := fun s =>
  let l := fresh (dom (heap s)) in
  (Normal l, set_heap (<[l := ∅]> (heap s)) s).

Definition own_props (h : gmap loc (gmap string value)) (l : loc) : gmap string value :=
  default ∅ (h !! l).

Definition attrs_of (s : state W) (l : loc) : attributes :=
  default ordinary (attrs s !! l).

(* The first object on the prototype chain of l that has k as an own
   property.  A chain has no cycle, so it is no longer than the attribute
   table, which bounds the walk. *)
Fixpoint find_owner (fuel : nat) (h : gmap loc (gmap string value))
    (a : gmap loc attributes) (l : loc) (k : string) : option loc :=
  match fuel with
  | O => None
  | S fuel' =>
      match own_props h l !! k with
      | Some _ => Some l
      | None =>
          match a !! l with
          | Some (mkAttributes (Some p) _ _) => find_owner fuel' h a p k
          | _ => None
          end
      end
  end.

Definition owner (s : state W) (l : loc) (k : string) : option loc :=
  find_owner (S (size (attrs s))) (heap s) (attrs s) l k.

(* The value `o.k` reads for an object: the property of the owner found on
   the prototype chain, undefined when there is none. *)
Definition lookup_prop (s : state W) (l : loc) (k : string) : value :=
  match owner s l k with
  | Some o => default VUndefined (own_props (heap s) o !! k)
  | None => VUndefined
  end.

(* `o.k` read.  Reading through null or undefined is a TypeError.  A
   missing property reads as undefined; runner.js reads only `network`,
   which no built-in prototype defines, so a primitive has none. *)
Definition get_prop (o : value) (k : string) : M W value := fun s =>
  match o with
  | VUndefined | VNull => (Throw TypeError, s)
  | VObject l | VFunction l => (Normal (lookup_prop s l k), s)
  | _ => (Normal VUndefined, s)
  end.

(* Whether the assignment `o.k = x` goes through: not when the property
   found on the chain is read-only, and a property the object does not
   own yet can be created only on an extensible object. *)
Definition takes (s : state W) (l : loc) (k : string) : bool :=
  match owner s l k with
  | Some o =>
      negb (bool_decide (k ∈ readonly (attrs_of s o)))
      && (bool_decide (o = l) || extensible (attrs_of s l))
  | None => extensible (attrs_of s l)
  end.

(* The state once the own property k of l holds x. *)
Definition put_prop (l : loc) (k : string) (x : value) (s : state W) : state W :=
  let s' := set_heap (<[l := <[k := x]> (own_props (heap s) l)]> (heap s)) s in
  set_attrs (alter (make_writable k) l (attrs s')) s'.

(* `o.k = x` in strict mode: only objects take the property, and an
   assignment that does not go through is a TypeError. *)
Definition set_prop (o : value) (k : string) (x : value) : M W unit := fun s =>
  match o with
  | VObject l | VFunction l =>
      if takes s l k then (Normal tt, put_prop l k x s) else (Throw TypeError, s)
  | _ => (Throw TypeError, s)
  end.

(* The store once `config.network = x` has been carried out on object c. *)
Definition assigned (c : loc) (x : value) (s : state W) : gmap loc (gmap string value) :=
  <[c := <["network" := x]> (own_props (heap s) c)]> (heap s).

(* ---- promises and async functions ---- *)

Definition await {A} (p : promise A) : M W A := fun s =>
  match p with
  | Fulfilled a => (Normal a, s)
  | Rejected e => (Throw e, s)
  | Pending => (Blocked, s)
  end.

(* Calling an async function never throws: the completion of its body
   becomes the state of the promise it returns. *)
Definition async {A} (body : M W A) : M W (promise A) := fun s =>
  match body s with
  | (Normal a, s') => (Normal (Fulfilled a), s')
  | (Throw e, s') => (Normal (Rejected e), s')
  | (Blocked, s') => (Normal Pending, s')
  end.

(* ---- calls into ./runtime ---- *)

Definition WorkspaceContainer_create (cfg fn : value) : M W (promise WorkspaceContainer) :=
  do! emit (EvCreate cfg fn) in
  fun s => let '(w, p) := rt_create (heap s) cfg fn (world s) in (Normal p, set_world w s).

Definition createFrom (c : WorkspaceContainer) : M W (promise WorkspaceContainer) :=
  do! emit (EvCreateFrom c) in
  fun s => let '(w, p) := rt_createFrom c (world s) in (Normal p, set_world w s).

Definition container_clone (c : WorkspaceContainer) (fn : value) : M W (promise unit) :=
  do! emit (EvContainerClone c fn) in
  fun s => let '(w, p) := rt_clone c fn (world s) in (Normal p, set_world w s).

(* ---- function getConfigAndFn(configOrFunction, f) ---- *)

Definition getConfigAndFn (configOrFunction f : value) : M W (value * value) :=
  let type1 := typeof configOrFunction in
  let type2 := typeof f in
  if String.eqb type1 "function" && String.eqb type2 "undefined" then
    let! l := alloc in
    ret (VObject l, configOrFunction)
  else if String.eqb type1 "object"
          && (String.eqb type2 "function" || String.eqb type2 "undefined") then
    ret (configOrFunction, f)
  else
    throw (Error invalid_arguments_msg).

(* ---- static getNetworkFromEnv() ---- *)

(* The read of process.env is logged, so that a run in which the
   environment plays no part can be told apart. *)
Definition getNetworkFromEnv : M W string :=
  do! emit read_env in
  fun s =>
    match env s !! NEAR_WORKSPACES_NETWORK with
    | Some network =>
        if String.eqb network "sandbox" || String.eqb network "testnet"
        then (Normal network, s)
        else (Throw (Error (invalid_network_msg network)), s)
    | None => (Normal "sandbox", s)
    end.

Definition networkIsTestnet : M W bool :=
  let! n := getNetworkFromEnv in ret (String.eqb n "testnet").

Definition networkIsSandbox : M W bool :=
  let! n := getNetworkFromEnv in ret (String.eqb n "sandbox").

(* ---- async startWaiting(container) and the constructor ---- *)

(* `this.container = await container`: the field is written only when the
   awaited promise is fulfilled. *)
Definition startWaiting (this_container : option WorkspaceContainer)
    (p : promise WorkspaceContainer) : option WorkspaceContainer * promise unit :=
  match p with
  | Fulfilled c => (Some c, Fulfilled tt)
  | Rejected e => (this_container, Rejected e)
  | Pending => (this_container, Pending)
  end.

Definition new_Workspace (workspaceContainerPromise : promise WorkspaceContainer) : Workspace :=
  let '(c, r) := startWaiting None workspaceContainerPromise in
  mkWorkspace r c.

(* ---- static init(configOrFunction = async () => ({}), f) ---- *)

(* The default parameter value replaces an undefined first argument by a
   newly created function. *)
Definition default_configOrFunction (configOrFunction : value) : M W value :=
  match configOrFunction with
  | VUndefined => let! l := alloc in ret (VFunction l)
  | v => ret v
  end.

Definition init (configOrFunction f : value) : M W Workspace :=
  let! configOrFunction := default_configOrFunction configOrFunction in
  let! (config, fn) := getConfigAndFn configOrFunction f in
  let! _a := get_prop config "network" in
  let! network :=
    (if not_nullish _a then ret _a
     else let! n := getNetworkFromEnv in ret (VString n)) in
  do! set_prop config "network" network in
  let! p := WorkspaceContainer_create config fn in
  ret (new_Workspace p).

(* ---- async clone(fn) ---- *)

Definition this_container (this : Workspace) : M W WorkspaceContainer :=
  match container this with
  | Some c => ret c
  | None => throw TypeError        (* a member of undefined *)
  end.

Definition clone (this : Workspace) (fn : value) : M W (promise WorkspaceContainer) :=
  async (
    do! emit EvAwaitReady in
    do! await (ready this) in
    let! c := this_container this in
    let! p := createFrom c in
    do! emit EvAwaitDerived in
    let! container := await p in
    let! q := container_clone container fn in
    do! emit EvAwaitCallback in
    do! await q in
    ret container).

(* ---- async cloneSandbox(fn); `None` is the `null` it returns ---- *)

Definition cloneSandbox (this : Workspace) (fn : value)
    : M W (promise (option WorkspaceContainer)) :=
  async (
    do! emit EvAwaitReady in
    do! await (ready this) in
    let! c := this_container this in
    let! network := get_prop (config c) "network" in
    if strict_eq_string network "sandbox" then
      let! p := clone this fn in
      let! d := await p in          (* the returned promise is adopted *)
      ret (Some d)
    else
      ret None).

(* ---- var __importDefault = ... function (mod) { ... } ---- *)

(* ToBoolean, as the conditional operator and `&&` apply it. *)
Definition truthy (v : value) : bool :=
  match v with
  | VUndefined | VNull => false
  | VBool b => b
  | VNumber n => PrimFloat.ltb n 0 || PrimFloat.ltb 0 n   (* not for +0, -0, NaN *)
  | VBigInt z => negb (Z.eqb z 0)
  | VString s => negb (String.eqb s "")
  | VSymbol _ | VFunction _ | VObject _ => true
  end.

(* `(mod && mod.__esModule) ? mod : { "default": mod }`.  The property is
   read only when mod is truthy; `__esModule`, like `network`, is defined
   by no built-in prototype. *)
Definition __importDefault (mod_ : value) : M W value :=
  let! flag := (if truthy mod_ then get_prop mod_ "__esModule" else ret mod_) in
  if truthy flag then ret mod_
  else
    let! l := alloc in
    do! set_prop (VObject l) "default" mod_ in
    ret (VObject l).

End Code.

(* --------------------------------------------------------------------- *)
(* Vocabulary of the statements                                           *)
(* --------------------------------------------------------------------- *)

(* The state a promise reaches when it follows q and, on fulfilment,
   carries d: what an async function returns whose body ends with
   `await q; return d`. *)
Definition settle {A B} (q : promise A) (d : B) : promise B :=
  match q with
  | Fulfilled _ => Fulfilled d
  | Rejected e => Rejected e
  | Pending => Pending
  end.

(* Everything a complete run of `clone` logs, in order. *)
Definition full_trace (c d : WorkspaceContainer) (fn : value) : list event :=
  [EvAwaitReady; EvCreateFrom c; EvAwaitDerived; EvContainerClone d fn; EvAwaitCallback].

(* The two shapes of arguments getConfigAndFn lets through. *)
Definition accepted (a f : value) : Prop :=
  (typeof a = "function" /\ typeof f = "undefined")
  \/ (typeof a = "object" /\ (typeof f = "function" \/ typeof f = "undefined")).

(* The same for init, where an undefined first argument stands for the
   default function. *)
Definition accepted_by_init (a1 a2 : value) : Prop :=
  ((typeof a1 = "undefined" \/ typeof a1 = "function") /\ typeof a2 = "undefined")
  \/ (typeof a1 = "object" /\ (typeof a2 = "function" \/ typeof a2 = "undefined")).

(* The value process.env holds for the variable is one init can use. *)
Definition env_valid (e : gmap string string) : Prop :=
  match e !! NEAR_WORKSPACES_NETWORK with
  | None => True
  | Some v => v = "sandbox" \/ v = "testnet"
  end.

(* Every object of the first store is in the second, with the same
   properties. *)
Definition preserved (h h' : gmap loc (gmap string value)) : Prop :=
  forall l m, h !! l = Some m -> h' !! l = Some m.

Definition promise_map {A B} (f : A -> B) (p : promise A) : promise B :=
  match p with
  | Fulfilled a => Fulfilled (f a)
  | Rejected e => Rejected e
  | Pending => Pending
  end.

Section Slices.

Context {W : Type} {RT : Runtime W}.
Local Open Scope js_scope.

(* init up to the destructuring of getConfigAndFn's result ... *)
Definition init_arguments (configOrFunction f : value) : M W (value * value) :=
  let! configOrFunction := default_configOrFunction configOrFunction in
  getConfigAndFn configOrFunction f.

(* ... and from there on: the two statements that follow it. *)
Definition init_tail (config fn : value) : M W Workspace :=
  let! _a := get_prop config "network" in
  let! network :=
    (if not_nullish _a then ret _a
     else let! n := getNetworkFromEnv in ret (VString n)) in
  do! set_prop config "network" network in
  let! p := WorkspaceContainer_create config fn in
  ret (new_Workspace p).

(* The state s1 is s with, at most, new objects in the store. *)
Definition grown (s s1 : state W) : Prop :=
  env s1 = env s /\ world s1 = world s /\ log s1 = log s
  /\ preserved (heap s) (heap s1).

(* The configuration init works on yields no network when read: always so
   for the new object made for a function, and for a given object when
   what `config.network` reads, through the prototype chain, is null or
   undefined. *)
Definition network_missing (s : state W) (a1 : value) : bool :=
  match a1 with
  | VObject c => negb (not_nullish (lookup_prop s c "network"))
  | _ => true
  end.

(* The configuration init works on does not take the assignment of
   `network`: a given object that is frozen, not extensible, or whose
   `network` is read-only.  The new object made for a function takes it. *)
Definition config_locked (s : state W) (a1 : value) : bool :=
  match a1 with
  | VObject c => negb (takes s c "network")
  | _ => false
  end.

(* How init ends once the network x is known and the configuration object
   c takes it: the assignment, the call of the runtime, the new Workspace. *)
Definition init_finish (c : loc) (fn x : value) (s : state W) : completion Workspace * state W :=
  let s1 := put_prop c "network" x s in
  let '(w, p) := rt_create (heap s1) (VObject c) fn (world s) in
  (Normal (new_Workspace p), set_world w (logged (EvCreate (VObject c) fn) s1)).

End Slices.


(* --------------------------------------------------------------------- *)
(* A concrete runtime, for running the definitions                        *)
(* --------------------------------------------------------------------- *)

Module Scenario.

(* Containers are numbered as they are made; every promise is fulfilled. *)
#[local] Instance counting : Runtime nat := {|
  rt_create := fun _ cfg _ w => (S w, Fulfilled (mkContainer w cfg));
  rt_createFrom := fun c w => (S w, Fulfilled (mkContainer w (config c)));
  rt_clone := fun _ _ w => (w, Fulfilled tt)
|}.

(* A runtime whose `createFrom` fails. *)
Definition failing : Runtime nat := {|
  rt_create := fun _ cfg _ w => (S w, Fulfilled (mkContainer w cfg));
  rt_createFrom := fun _ w => (w, Rejected (RuntimeError 1));
  rt_clone := fun _ _ w => (w, Fulfilled tt)
|}.

Definition with_env (e : gmap string string) : state nat :=
  mkState ∅ e 0 [] ∅.

Definition env_unset : gmap string string := ∅.
Definition env_of (v : string) : gmap string string := {[ NEAR_WORKSPACES_NETWORK := v ]}.

(* One configuration object at location 1 and one function at 2. *)
Definition with_config (m : gmap string value) (e : gmap string string) : state nat :=
  mkState (<[1%positive := m]> (<[2%positive := ∅]> ∅)) e 0 [] ∅.

(* The same, the configuration object frozen by Object.freeze. *)
Definition frozen (m : gmap string value) : attributes :=
  mkAttributes None false (dom m).
Definition with_frozen_config (m : gmap string value) (e : gmap string string) : state nat :=
  mkState (<[1%positive := m]> (<[2%positive := ∅]> ∅)) e 0 []
    {[ 1%positive := frozen m ]}.

(* The same, the configuration object made by Object.create(parent), the
   parent being object 3. *)
Definition with_inherited_config (m parent : gmap string value) (e : gmap string string)
    : state nat :=
  mkState (<[1%positive := m]> (<[2%positive := ∅]> (<[3%positive := parent]> ∅))) e 0 []
    {[ 1%positive := mkAttributes (Some 3%positive) true ∅ ]}.

Definition cfg : value := VObject 1%positive.
Definition run_fn : value := VFunction 2%positive.

Definition testnet_config : gmap string value :=
  {[ "network" := VString "testnet" ]}.
Definition sandbox_config : gmap string value :=
  {[ "network" := VString "sandbox" ]}.
Definition account_config : gmap string value :=
  {[ "rootAccount" := VString "me.testnet" ]}.

(* The configuration object without network, under NEAR_WORKSPACES_NETWORK=testnet,
   and the state init leaves behind there. *)
Definition account_on_testnet : state nat :=
  with_config account_config (env_of "testnet").
Definition after_init : state nat :=
  (init cfg run_fn account_on_testnet).2.

(* A workspace whose container promise was fulfilled with container 0. *)
Definition root_container : WorkspaceContainer := mkContainer 0 cfg.
Definition workspace : Workspace := new_Workspace (Fulfilled root_container).

Example typeof_null : typeof VNull = "object".
Proof. reflexivity. Qed.

Example env_default : (getNetworkFromEnv (with_env env_unset)).1 = Normal "sandbox".
Proof. reflexivity. Qed.

Example env_testnet : (getNetworkFromEnv (with_env (env_of "testnet"))).1 = Normal "testnet".
Proof. vm_compute. reflexivity. Qed.

Example env_mainnet :
  (getNetworkFromEnv (with_env (env_of "mainnet"))).1
  = Throw (Error "environment variable NEAR_WORKSPACES_NETWORK=mainnet invalid; use 'testnet' or 'sandbox' (the default)").
Proof. vm_compute. reflexivity. Qed.

Example classify_number :
  (getConfigAndFn (VNumber 3%float) VUndefined (with_env env_unset)).1
  = Throw (Error invalid_arguments_msg).
Proof. reflexivity. Qed.

Example classify_two_functions :
  (getConfigAndFn run_fn run_fn (with_config ∅ env_unset)).1
  = Throw (Error invalid_arguments_msg).
Proof. reflexivity. Qed.

Example init_no_arguments :
  log (init VUndefined VUndefined (with_env env_unset)).2
  = [EvReadEnv NEAR_WORKSPACES_NETWORK; EvCreate (VObject 2%positive) (VFunction 1%positive)].
Proof. vm_compute. reflexivity. Qed.

Example init_config_keeps_network :
  (init cfg run_fn (with_config {[ "network" := VString "testnet" ]} (env_of "mainnet"))).2
  = mkState (<[1%positive := {[ "network" := VString "testnet" ]}]> (<[2%positive := ∅]> ∅))
            (env_of "mainnet") 1 [EvCreate cfg run_fn] ∅.
Proof. vm_compute. reflexivity. Qed.

Example init_frozen_config :
  init cfg run_fn (with_frozen_config testnet_config env_unset)
  = (Throw TypeError, with_frozen_config testnet_config env_unset).
Proof. vm_compute. reflexivity. Qed.

Example init_frozen_empty_config :
  init cfg run_fn (with_frozen_config ∅ env_unset)
  = (Throw TypeError, logged read_env (with_frozen_config ∅ env_unset)).
Proof. vm_compute. reflexivity. Qed.

Example init_inherited_network :
  log (init cfg run_fn (with_inherited_config ∅ testnet_config (env_of "mainnet"))).2
  = [EvCreate cfg run_fn]
  /\ heap (init cfg run_fn (with_inherited_config ∅ testnet_config (env_of "mainnet"))).2
       !! 1%positive = Some testnet_config.
Proof. vm_compute. split; reflexivity. Qed.

Example cloneSandbox_on_sandbox :
  cloneSandbox workspace run_fn (with_config sandbox_config env_unset)
  = (Normal (Fulfilled (Some (mkContainer 0 cfg))),
     mkState (<[1%positive := sandbox_config]> (<[2%positive := ∅]> ∅)) env_unset 1
       (EvAwaitReady :: full_trace root_container (mkContainer 0 cfg) run_fn) ∅).
Proof. vm_compute. reflexivity. Qed.

Example cloneSandbox_on_testnet :
  cloneSandbox workspace run_fn (with_config testnet_config env_unset)
  = (Normal (Fulfilled None),
     mkState (<[1%positive := testnet_config]> (<[2%positive := ∅]> ∅)) env_unset 0
       [EvAwaitReady] ∅).
Proof. vm_compute. reflexivity. Qed.

Example clone_createFrom_fails :
  clone (RT := failing) workspace run_fn (with_config sandbox_config env_unset)
  = (Normal (Rejected (RuntimeError 1)),
     mkState (<[1%positive := sandbox_config]> (<[2%positive := ∅]> ∅)) env_unset 0
       [EvAwaitReady; EvCreateFrom root_container; EvAwaitDerived] ∅).
Proof. vm_compute. reflexivity. Qed.

End Scenario.

(* --------------------------------------------------------------------- *)
(* Properties                                                             *)
(* --------------------------------------------------------------------- *)

Section Properties.

Context {W : Type} {RT : Runtime W}.
Implicit Types (s : state W) (v : string).

(* ---- getNetworkFromEnv ---- *)

Lemma getNetworkFromEnv_run s :
  getNetworkFromEnv s =
  match env s !! NEAR_WORKSPACES_NETWORK with
  | Some v =>
      if String.eqb v "sandbox" || String.eqb v "testnet"
      then (Normal v, logged read_env s)
      else (Throw (Error (invalid_network_msg v)), logged read_env s)
  | None => (Normal "sandbox", logged read_env s)
  end.
Proof. reflexivity. Qed.

Lemma getNetworkFromEnv_unset s :
  env s !! NEAR_WORKSPACES_NETWORK = None ->
  getNetworkFromEnv s = (Normal "sandbox", logged read_env s).
Proof.
  intros Hnone. rewrite getNetworkFromEnv_run, Hnone. reflexivity.
Qed.

Lemma getNetworkFromEnv_valid s v :
  env s !! NEAR_WORKSPACES_NETWORK = Some v ->
  v = "sandbox" \/ v = "testnet" ->
  getNetworkFromEnv s = (Normal v, logged read_env s).
Proof.
  intros Hsome Hv. rewrite getNetworkFromEnv_run, Hsome. destruct Hv as [-> | ->]; reflexivity.
Qed.

Lemma getNetworkFromEnv_invalid s v :
  env s !! NEAR_WORKSPACES_NETWORK = Some v ->
  v <> "sandbox" -> v <> "testnet" ->
  getNetworkFromEnv s = (Throw (Error (invalid_network_msg v)), logged read_env s).
Proof.
  intros Hsome Hs Ht. rewrite getNetworkFromEnv_run, Hsome.
  destruct (String.eqb_spec v "sandbox") as [| _]; [contradiction |].
  destruct (String.eqb_spec v "testnet") as [| _]; [contradiction |].
  reflexivity.
Qed.

(* Whatever the environment, the call completes, normally with one of
   the two network names or by throwing. *)
Lemma getNetworkFromEnv_cases s :
  (exists n, (n = "sandbox" \/ n = "testnet") /\
             getNetworkFromEnv s = (Normal n, logged read_env s))
  \/ (exists v, env s !! NEAR_WORKSPACES_NETWORK = Some v /\
                v <> "sandbox" /\ v <> "testnet" /\
                getNetworkFromEnv s = (Throw (Error (invalid_network_msg v)), logged read_env s)).
Proof.
  destruct (env s !! NEAR_WORKSPACES_NETWORK) as [v |] eqn:Hv.
  - destruct (decide (v = "sandbox")) as [Hs | Hs].
    { left. exists v. split; [by left |]. by apply getNetworkFromEnv_valid; [| left]. }
    destruct (decide (v = "testnet")) as [Ht | Ht].
    { left. exists v. split; [by right |]. by apply getNetworkFromEnv_valid; [| right]. }
    right. exists v. repeat split; try done. by apply getNetworkFromEnv_invalid.
  - left. exists "sandbox". split; [by left |]. by apply getNetworkFromEnv_unset.
Qed.

(** C1. For every value of NEAR_WORKSPACES_NETWORK, getNetworkFromEnv
    returns 'sandbox' when the variable is unset, returns the value
    unchanged when it is 'sandbox' or 'testnet', and throws an Error for
    any other value. *)
Theorem C1_getNetworkFromEnv s :
  match env s !! NEAR_WORKSPACES_NETWORK with
  | None => (getNetworkFromEnv s).1 = Normal "sandbox"
  | Some v =>
      (v = "sandbox" \/ v = "testnet" -> (getNetworkFromEnv s).1 = Normal v)
      /\ (v <> "sandbox" -> v <> "testnet" ->
          (getNetworkFromEnv s).1 = Throw (Error (invalid_network_msg v)))
  end.
Proof.
  destruct (env s !! NEAR_WORKSPACES_NETWORK) as [v |] eqn:Hv.
  - split.
    + intros Hok. by rewrite (getNetworkFromEnv_valid s v Hv Hok).
    + intros Hs Ht. by rewrite (getNetworkFromEnv_invalid s v Hv Hs Ht).
  - by rewrite (getNetworkFromEnv_unset s Hv).
Qed.

(* ---- networkIsTestnet / networkIsSandbox ---- *)

Lemma networkIsTestnet_run s :
  networkIsTestnet s =
  match getNetworkFromEnv s with
  | (Normal n, s') => (Normal (String.eqb n "testnet"), s')
  | (Throw e, s') => (Throw e, s')
  | (Blocked, s') => (Blocked, s')
  end.
Proof. reflexivity. Qed.

Lemma networkIsSandbox_run s :
  networkIsSandbox s =
  match getNetworkFromEnv s with
  | (Normal n, s') => (Normal (String.eqb n "sandbox"), s')
  | (Throw e, s') => (Throw e, s')
  | (Blocked, s') => (Blocked, s')
  end.
Proof. reflexivity. Qed.

(** C10. In every environment in which getNetworkFromEnv returns without
    throwing, networkIsTestnet() and networkIsSandbox() both return,
    exactly one of them is true, and networkIsTestnet() is true exactly
    when the variable's value is 'testnet'. *)
Theorem C10_exactly_one_network s n :
  (getNetworkFromEnv s).1 = Normal n ->
  exists t b,
    (networkIsTestnet s).1 = Normal t
    /\ (networkIsSandbox s).1 = Normal b
    /\ t = negb b
    /\ (t = true <-> env s !! NEAR_WORKSPACES_NETWORK = Some "testnet").
Proof.
  intros Hret.
  rewrite networkIsTestnet_run, networkIsSandbox_run.
  destruct (getNetworkFromEnv_cases s) as [(m & Hm & Hrun) | (v & _ & _ & _ & Hrun)];
    rewrite Hrun in Hret |- *; cbn in Hret; [| discriminate].
  exists (String.eqb m "testnet"), (String.eqb m "sandbox").
  split; [reflexivity |]. split; [reflexivity |].
  assert (Henv : m = "testnet" <-> env s !! NEAR_WORKSPACES_NETWORK = Some "testnet").
  { pose proof (Hunset := getNetworkFromEnv_unset s).
    destruct (env s !! NEAR_WORKSPACES_NETWORK) as [v |] eqn:Hv.
    - destruct (decide (v = "sandbox")) as [-> | Hs].
      + rewrite (getNetworkFromEnv_valid s "sandbox" Hv) in Hrun by (by left).
        inversion Hrun; subst. split; intros; discriminate.
      + destruct (decide (v = "testnet")) as [-> | Ht].
        * rewrite (getNetworkFromEnv_valid s "testnet" Hv) in Hrun by (by right).
          inversion Hrun; subst. done.
        * rewrite (getNetworkFromEnv_invalid s v Hv Hs Ht) in Hrun. discriminate.
    - rewrite (Hunset eq_refl) in Hrun. inversion Hrun; subst.
      split; intros; discriminate. }
  split.
  - destruct Hm as [-> | ->]; reflexivity.
  - rewrite <- Henv. apply String.eqb_eq.
Qed.

(* ---- stepping through the monad ---- *)

Ltac js_unfold :=
  unfold init, clone, cloneSandbox, async, await, this_container, createFrom,
    container_clone, WorkspaceContainer_create, default_configOrFunction,
    getConfigAndFn, get_prop, set_prop, alloc, emit, bind, ret, throw.

Ltac js_simpl :=
  cbn -[own_props insert lookup fresh dom new_Workspace getNetworkFromEnv
        owner lookup_prop takes put_prop filter size alter].

Ltac js_run := js_unfold; js_simpl.

(* A second argument that is a function or is missing. *)
Ltac by_typeof f H :=
  destruct f; cbn in H; try (destruct H; discriminate).

(* ---- getConfigAndFn ---- *)

Lemma getConfigAndFn_function l s :
  getConfigAndFn (VFunction l) VUndefined s
  = (Normal (VObject (fresh (dom (heap s))), VFunction l),
     set_heap (<[fresh (dom (heap s)) := ∅]> (heap s)) s).
Proof. reflexivity. Qed.

Lemma getConfigAndFn_object a f s :
  typeof a = "object" ->
  typeof f = "function" \/ typeof f = "undefined" ->
  getConfigAndFn a f s = (Normal (a, f), s).
Proof.
  intros Ha Hf. unfold getConfigAndFn. rewrite Ha.
  destruct Hf as [-> | ->]; reflexivity.
Qed.

Lemma getConfigAndFn_first_invalid a f s :
  typeof a <> "function" -> typeof a <> "object" ->
  getConfigAndFn a f s = (Throw (Error invalid_arguments_msg), s).
Proof. intros Hfun Hobj. destruct a; cbn in Hfun, Hobj; try congruence; reflexivity. Qed.

Lemma getConfigAndFn_second_invalid a f s :
  typeof f <> "function" -> typeof f <> "undefined" ->
  getConfigAndFn a f s = (Throw (Error invalid_arguments_msg), s).
Proof. intros Hfun Hund. destruct a, f; cbn in Hfun, Hund; try congruence; reflexivity. Qed.

Lemma getConfigAndFn_two_functions a f s :
  typeof a = "function" -> typeof f <> "undefined" ->
  getConfigAndFn a f s = (Throw (Error invalid_arguments_msg), s).
Proof. intros Hfun Hund. destruct a, f; cbn in Hfun, Hund; try congruence; reflexivity. Qed.

(* ---- init ---- *)

(* An undefined first argument is replaced by a new function. *)
Lemma init_default f s :
  init VUndefined f s
  = init (VFunction (fresh (dom (heap s)))) f
      (set_heap (<[fresh (dom (heap s)) := ∅]> (heap s)) s).
Proof. reflexivity. Qed.

Lemma init_null_config f s :
  typeof f = "function" \/ typeof f = "undefined" ->
  init VNull f s = (Throw TypeError, s).
Proof. intros Hf. by_typeof f Hf; reflexivity. Qed.

Lemma own_props_insert_eq (h : gmap loc (gmap string value)) l m :
  own_props (<[l := m]> h) l = m.
Proof. unfold own_props. by rewrite lookup_insert_eq. Qed.

Lemma getNetworkFromEnv_state s : (getNetworkFromEnv s).2 = logged read_env s.
Proof.
  rewrite getNetworkFromEnv_run.
  destruct (env s !! NEAR_WORKSPACES_NETWORK) as [v |]; [| reflexivity].
  destruct (_ || _); reflexivity.
Qed.

Lemma getNetworkFromEnv_returns s n :
  (getNetworkFromEnv s).1 = Normal n ->
  getNetworkFromEnv s = (Normal n, logged read_env s).
Proof.
  intros Hn. rewrite <- getNetworkFromEnv_state, <- Hn.
  by destruct (getNetworkFromEnv s).
Qed.

(* The outcome depends on the environment alone. *)
Lemma getNetworkFromEnv_env s s0 n :
  env s0 = env s ->
  (getNetworkFromEnv s).1 = Normal n ->
  getNetworkFromEnv s0 = (Normal n, logged read_env s0).
Proof.
  intros Henv. rewrite !getNetworkFromEnv_run, Henv.
  destruct (env s !! NEAR_WORKSPACES_NETWORK) as [v |]; cbn.
  - destruct (_ || _); cbn; congruence.
  - congruence.
Qed.

Lemma nullish_cases (m : gmap string value) :
  not_nullish (default VUndefined (m !! "network")) = false
  <-> (m !! "network" = None \/ m !! "network" = Some VUndefined
       \/ m !! "network" = Some VNull).
Proof.
  destruct (m !! "network") as [[] |]; cbn; intuition congruence.
Qed.

(** C2. Whenever the first argument is neither a function nor an object,
    getConfigAndFn throws the 'Invalid arguments' Error.  Workspace.init
    throws it for every first argument other than undefined that is
    neither a function nor an object (a number, a string, ...), and for a
    function (given, or the default put in place of undefined) paired with
    a second argument that is not undefined. *)
Theorem C2_init_invalid_arguments a1 a2 s :
  (a1 <> VUndefined /\ typeof a1 <> "function" /\ typeof a1 <> "object")
  \/ ((a1 = VUndefined \/ typeof a1 = "function") /\ typeof a2 <> "undefined") ->
  (init a1 a2 s).1 = Throw (Error invalid_arguments_msg)
  /\ (typeof a1 <> "function" -> typeof a1 <> "object" ->
      getConfigAndFn a1 a2 s = (Throw (Error invalid_arguments_msg), s)).
Proof.
  intros Hargs. split; [| apply getConfigAndFn_first_invalid].
  destruct Hargs as [(Hdef & Hfun & Hobj) | ([-> | Hfun] & Hund)].
  - destruct a1; cbn in Hfun, Hobj; try congruence; reflexivity.
  - rewrite init_default. unfold init, bind, default_configOrFunction, ret.
    by rewrite getConfigAndFn_two_functions.
  - destruct a1; cbn in Hfun; try discriminate.
    unfold init, bind, default_configOrFunction, ret.
    by rewrite getConfigAndFn_two_functions.
Qed.


(* ---- the object store ---- *)

(* An owner that is found is found with any larger bound on the walk. *)
Lemma find_owner_more_fuel n m h (a : gmap loc attributes) l k o :
  n <= m -> find_owner n h a l k = Some o -> find_owner m h a l k = Some o.
Proof.
  revert m l. induction n as [| n IH]; intros m l Hle Hfound; [discriminate |].
  destruct m as [| m]; [lia |]. cbn in Hfound |- *.
  destruct (own_props h l !! k); [done |].
  destruct (a !! l) as [[[p |] ? ?] |]; try discriminate.
  apply IH; [lia | done].
Qed.

Lemma attrs_set_heap_old h s l :
  is_Some (heap s !! l) -> attrs (set_heap h s) !! l = attrs s !! l.
Proof.
  intros Hl. cbn. destruct (attrs s !! l) as [a |] eqn:Ha.
  - apply map_lookup_filter_Some. split; [done |]. cbn. by apply elem_of_dom.
  - apply map_lookup_filter_None. left. done.
Qed.

Lemma attrs_set_heap_new h s l :
  heap s !! l = None -> attrs (set_heap h s) !! l = None.
Proof.
  intros Hl. cbn. apply map_lookup_filter_None. right.
  intros a _. cbn. by apply not_elem_of_dom.
Qed.

(* A property an object owns is found on the object itself. *)
Lemma owner_own s l k x :
  own_props (heap s) l !! k = Some x -> owner s l k = Some l.
Proof. intros Hown. unfold owner. cbn. by rewrite Hown. Qed.

(* An object without the property and without a prototype of its own has
   no owner for it. *)
Lemma owner_none s l k :
  own_props (heap s) l !! k = None -> attrs s !! l = None -> owner s l k = None.
Proof. intros Hown Hattr. unfold owner. cbn. by rewrite Hown, Hattr. Qed.

Lemma lookup_prop_own s l k x :
  own_props (heap s) l !! k = Some x -> lookup_prop s l k = x.
Proof. intros Hown. unfold lookup_prop. by rewrite (owner_own s l k x Hown), Hown. Qed.

Lemma lookup_prop_none s l k :
  own_props (heap s) l !! k = None -> attrs s !! l = None ->
  lookup_prop s l k = VUndefined.
Proof. intros Hown Hattr. unfold lookup_prop. by rewrite owner_none. Qed.

Lemma takes_none s l k :
  own_props (heap s) l !! k = None -> attrs s !! l = None -> takes s l k = true.
Proof.
  intros Hown Hattr. unfold takes, attrs_of. by rewrite owner_none, Hattr.
Qed.

(* What assignment leaves behind. *)
Lemma heap_put_prop l k x s :
  heap (put_prop l k x s) = <[l := <[k := x]> (own_props (heap s) l)]> (heap s).
Proof. reflexivity. Qed.

Lemma own_props_put_prop l k x s :
  own_props (heap (put_prop l k x s)) l !! k = Some x.
Proof. rewrite heap_put_prop, own_props_insert_eq. apply lookup_insert_eq. Qed.

Lemma readonly_put_prop l k x s :
  k ∉ readonly (attrs_of (put_prop l k x s) l).
Proof.
  unfold attrs_of, put_prop. cbn. rewrite lookup_alter_eq.
  destruct (filter _ (attrs s) !! l) as [a |]; cbn; set_solver.
Qed.

(* Once assigned, the property is the object's own, reads back, and can be
   assigned again, in whatever state has that store and those attributes. *)
Lemma assigned_then (s1 t : state W) l k x :
  heap t = heap (put_prop l k x s1) -> attrs t = attrs (put_prop l k x s1) ->
  lookup_prop t l k = x /\ takes t l k = true.
Proof.
  intros Hh Ha.
  assert (Hown : own_props (heap t) l !! k = Some x)
    by (rewrite Hh; apply own_props_put_prop).
  split; [by apply lookup_prop_own |].
  unfold takes. rewrite (owner_own t l k x Hown).
  rewrite (bool_decide_eq_true_2 (l = l)) by done. rewrite orb_true_l, andb_true_r.
  apply negb_true_iff, bool_decide_eq_false.
  unfold attrs_of. rewrite Ha. apply readonly_put_prop.
Qed.

(** C3. For every function f, the call with only f resolves to a new
    object without any property, paired with f as the run function; when
    the network resolves, init hands exactly that pair to the runtime, the
    object by then carrying the resolved network and nothing else. *)
Theorem C3_function_only l s n :
  (getNetworkFromEnv s).1 = Normal n ->
  let l' := fresh (dom (heap s)) in
  heap s !! l' = None
  /\ getConfigAndFn (VFunction l) VUndefined s
     = (Normal (VObject l', VFunction l), set_heap (<[l' := ∅]> (heap s)) s)
  /\ own_props (<[l' := ∅]> (heap s)) l' = ∅
  /\ exists ws s',
       init (VFunction l) VUndefined s = (Normal ws, s')
       /\ log s' = log s ++ [read_env; EvCreate (VObject l') (VFunction l)]
       /\ heap s' = <[l' := {[ "network" := VString n ]}]> (heap s).
Proof.
  intros Hn l'.
  assert (Hnew : heap s !! l' = None) by apply not_elem_of_dom, is_fresh.
  split; [done |].
  split; [reflexivity |].
  split; [apply own_props_insert_eq |].
  set (s0 := set_heap (<[l' := ∅]> (heap s)) s).
  assert (Hown : forall t : state W, heap t = heap s0 ->
                   own_props (heap t) l' !! "network" = None).
  { intros t ->. cbn. by rewrite own_props_insert_eq, lookup_empty. }
  assert (Hattr : attrs s0 !! l' = None) by (by apply attrs_set_heap_new).
  js_run. fold l'. fold s0.
  rewrite (lookup_prop_none s0 l' "network" (Hown s0 eq_refl) Hattr). js_simpl.
  rewrite (getNetworkFromEnv_env s s0 n eq_refl Hn). js_run.
  rewrite (takes_none (logged read_env s0) l' "network" (Hown _ eq_refl) Hattr).
  js_simpl.
  destruct (rt_create _ _ _ _) as [w p]. eexists _, _.
  split; [reflexivity |]. cbn. split.
  - by rewrite <- app_assoc.
  - by rewrite own_props_insert_eq, insert_insert_eq, insert_empty.
Qed.

(* ===================================================================== *)
(* Further properties of runner.js                                        *)
(* ===================================================================== *)

Lemma accepted_dec a f : {accepted a f} + {~ accepted a f}.
Proof. unfold accepted. exact (decide _). Qed.

Lemma accepted_by_init_dec a1 a2 : {accepted_by_init a1 a2} + {~ accepted_by_init a1 a2}.
Proof. unfold accepted_by_init. exact (decide _). Qed.

Lemma preserved_refl h : preserved h h.
Proof. by intros l m. Qed.

Lemma preserved_trans h1 h2 h3 : preserved h1 h2 -> preserved h2 h3 -> preserved h1 h3.
Proof. intros H12 H23 l m Hl. by apply H23, H12. Qed.

Lemma preserved_fresh h m : preserved h (<[fresh (dom h) := m]> h).
Proof.
  intros l m' Hl. rewrite lookup_insert_ne; [done |].
  intros <-. pose proof (is_fresh (dom h)) as Hfresh.
  apply Hfresh, elem_of_dom. eauto.
Qed.

(* ---- getConfigAndFn ---- *)

Lemma getConfigAndFn_rejected a f s :
  ~ accepted a f ->
  getConfigAndFn a f s = (Throw (Error invalid_arguments_msg), s).
Proof.
  unfold accepted. intros Hno.
  destruct a, f; cbn in Hno; try reflexivity; exfalso; apply Hno; tauto.
Qed.

Lemma getConfigAndFn_accepted a f s :
  accepted a f ->
  exists cfg s',
    getConfigAndFn a f s = (Normal (cfg, if String.eqb (typeof a) "function" then a else f), s')
    /\ (if String.eqb (typeof a) "function"
        then cfg = VObject (fresh (dom (heap s)))
             /\ s' = set_heap (<[fresh (dom (heap s)) := ∅]> (heap s)) s
        else cfg = a /\ s' = s).
Proof.
  intros [[Ha Hf] | [Ha Hf]].
  - destruct a; try discriminate. destruct f; try discriminate.
    eexists _, _. split; [reflexivity |]. cbn. done.
  - rewrite (getConfigAndFn_object a f s Ha Hf). rewrite Ha. cbn. eauto.
Qed.

(* ---- init, piece by piece ---- *)

Lemma init_split a1 a2 s :
  init a1 a2 s =
  match init_arguments a1 a2 s with
  | (Normal (config, fn), s1) => init_tail config fn s1
  | (Throw e, s1) => (Throw e, s1)
  | (Blocked, s1) => (Blocked, s1)
  end.
Proof.
  unfold init, init_arguments, init_tail, bind.
  destruct (default_configOrFunction a1 s) as [[a | e |] s0]; try reflexivity.
  destruct (getConfigAndFn a a2 s0) as [[[config fn] | e |] s1]; reflexivity.
Qed.

Lemma grown_refl s : grown s s.
Proof. repeat split. apply preserved_refl. Qed.

Lemma grown_alloc s : grown s (set_heap (<[fresh (dom (heap s)) := ∅]> (heap s)) s).
Proof. repeat split. apply preserved_fresh. Qed.

Lemma grown_trans s1 s2 s3 : grown s1 s2 -> grown s2 s3 -> grown s1 s3.
Proof.
  intros (He & Hw & Hl & Hh) (He' & Hw' & Hl' & Hh').
  repeat split; try congruence. by eapply preserved_trans.
Qed.

Lemma init_tail_null fn s : init_tail VNull fn s = (Throw TypeError, s).
Proof. reflexivity. Qed.


(* Reading and assignability look at the store and the attributes only. *)
Lemma takes_logged e s l k : takes (logged e s) l k = takes s l k.
Proof. reflexivity. Qed.

Lemma init_tail_object c fn s :
  init_tail (VObject c) fn s =
  let x0 := lookup_prop s c "network" in
  if not_nullish x0 then
    if takes s c "network" then init_finish c fn x0 s else (Throw TypeError, s)
  else
    match env s !! NEAR_WORKSPACES_NETWORK with
    | Some v =>
        if String.eqb v "sandbox" || String.eqb v "testnet"
        then if takes s c "network"
             then init_finish c fn (VString v) (logged read_env s)
             else (Throw TypeError, logged read_env s)
        else (Throw (Error (invalid_network_msg v)), logged read_env s)
    | None =>
        if takes s c "network"
        then init_finish c fn (VString "sandbox") (logged read_env s)
        else (Throw TypeError, logged read_env s)
    end.
Proof.
  unfold init_tail, init_finish. js_run.
  destruct (not_nullish _) eqn:Hnet; js_simpl.
  - destruct (takes s c "network"); js_simpl; [| reflexivity].
    by destruct (rt_create _ _ _ _).
  - rewrite getNetworkFromEnv_run.
    destruct (env s !! NEAR_WORKSPACES_NETWORK) as [v |]; js_simpl.
    + destruct (_ || _); js_simpl; [| reflexivity].
      rewrite takes_logged. destruct (takes s c "network"); js_simpl; [| reflexivity].
      by destruct (rt_create _ _ _ _).
    + rewrite takes_logged. destruct (takes s c "network"); js_simpl; [| reflexivity].
      by destruct (rt_create _ _ _ _).
Qed.

Lemma init_arguments_cases a1 a2 s :
  (~ accepted_by_init a1 a2
   /\ exists s1, init_arguments a1 a2 s = (Throw (Error invalid_arguments_msg), s1)
                 /\ grown s s1)
  \/ (accepted_by_init a1 a2
      /\ exists config fn s1,
           init_arguments a1 a2 s = (Normal (config, fn), s1)
           /\ grown s s1
           /\ (typeof fn = "function" \/ typeof fn = "undefined")
           /\ ((typeof a1 = "object" /\ config = a1 /\ fn = a2 /\ s1 = s)
               \/ (typeof a1 <> "object"
                   /\ exists c, config = VObject c /\ heap s !! c = None
                                /\ heap s1 !! c = Some ∅
                                /\ attrs s1 !! c = None))).
Proof.
  destruct (accepted_by_init_dec a1 a2) as [Hok | Hno]; [right | left]; split; try done.
  - destruct Hok as [[Ha Hf] | [Ha Hf]].
    + destruct a2; try discriminate.
      destruct a1; cbn in Ha; try (destruct Ha as [Ha | Ha]; discriminate).
      * (* undefined: the default function, then the new object *)
        set (lf := fresh (dom (heap s))).
        set (s0 := set_heap (<[lf := ∅]> (heap s)) s).
        assert (Hnew0 : heap s0 !! fresh (dom (heap s0)) = None)
          by apply not_elem_of_dom, is_fresh.
        exists (VObject (fresh (dom (heap s0)))), (VFunction lf),
               (set_heap (<[fresh (dom (heap s0)) := ∅]> (heap s0)) s0).
        split; [reflexivity |].
        split; [eapply grown_trans; [apply grown_alloc | apply (grown_alloc s0)] |].
        split; [by left |]. right. split; [discriminate |]. eexists. split; [reflexivity |].
        split; [| split; [cbn; by rewrite lookup_insert_eq | by apply attrs_set_heap_new]].
        destruct (heap s !! fresh (dom (heap s0))) as [m |] eqn:Hm; [| done].
        exfalso. apply (is_fresh (dom (heap s0))), elem_of_dom.
        exists m. by apply (preserved_fresh (heap s) ∅).
      * exists (VObject (fresh (dom (heap s)))), (VFunction l),
               (set_heap (<[fresh (dom (heap s)) := ∅]> (heap s)) s).
        assert (Hnew : heap s !! fresh (dom (heap s)) = None)
          by apply not_elem_of_dom, is_fresh.
        split; [reflexivity |]. split; [apply grown_alloc |].
        split; [by left |]. right. split; [discriminate |]. eexists. split; [reflexivity |].
        split; [done |].
        split; [cbn; by rewrite lookup_insert_eq | by apply attrs_set_heap_new].
    + exists a1, a2, s. split.
      { unfold init_arguments, bind.
        destruct a1; try discriminate; unfold default_configOrFunction, ret;
          by rewrite getConfigAndFn_object. }
      split; [apply grown_refl |]. split; [done |]. by left.
  - unfold accepted_by_init in Hno. unfold init_arguments, bind.
    destruct a1; cbn in Hno; cbn -[getConfigAndFn].
    1: { eexists. split; [| apply grown_alloc].
         rewrite getConfigAndFn_rejected; [reflexivity |].
         unfold accepted. cbn. intros [[_ Hf] | [? _]]; [| discriminate].
         apply Hno. left. by split; [left |]. }
    all: exists s; split; [| apply grown_refl];
         rewrite getConfigAndFn_rejected; [reflexivity |];
         unfold accepted; cbn; intros Hacc; apply Hno; tauto.
Qed.

Lemma init_finish_returns c fn x s0 :
  exists w p,
    rt_create (heap (put_prop c "network" x s0)) (VObject c) fn (world s0) = (w, p)
    /\ init_finish c fn x s0
       = (Normal (new_Workspace p),
          set_world w (logged (EvCreate (VObject c) fn) (put_prop c "network" x s0))).
Proof.
  unfold init_finish. cbn zeta. destruct (rt_create _ _ _ _) as [w p]. eauto.
Qed.

(* The ways the two statements after the destructuring can go, for an
   object as the configuration. *)
Lemma init_tail_cases c fn s :
  (network_missing s (VObject c) = true
   /\ exists v, env s !! NEAR_WORKSPACES_NETWORK = Some v
                /\ v <> "sandbox" /\ v <> "testnet"
                /\ init_tail (VObject c) fn s
                   = (Throw (Error (invalid_network_msg v)), logged read_env s))
  \/ (takes s c "network" = false
      /\ ((network_missing s (VObject c) = false
           /\ init_tail (VObject c) fn s = (Throw TypeError, s))
          \/ (network_missing s (VObject c) = true /\ env_valid (env s)
              /\ init_tail (VObject c) fn s = (Throw TypeError, logged read_env s))))
  \/ (takes s c "network" = true
      /\ network_missing s (VObject c) = false
      /\ not_nullish (lookup_prop s c "network") = true
      /\ init_tail (VObject c) fn s = init_finish c fn (lookup_prop s c "network") s)
  \/ (takes s c "network" = true
      /\ network_missing s (VObject c) = true
      /\ env_valid (env s)
      /\ exists n, (getNetworkFromEnv s).1 = Normal n
                   /\ init_tail (VObject c) fn s
                      = init_finish c fn (VString n) (logged read_env s)).
Proof.
  rewrite init_tail_object, getNetworkFromEnv_run. cbn zeta.
  unfold network_missing, env_valid.
  destruct (not_nullish _) eqn:Hnet; cbn.
  - destruct (takes s c "network"); [right; right; left | right; left]; eauto 10.
  - destruct (env s !! NEAR_WORKSPACES_NETWORK) as [v |].
    + destruct (String.eqb_spec v "sandbox") as [-> | Hs]; cbn.
      { destruct (takes s c "network"); [right; right; right | right; left].
        - split; [done |]. split; [done |]. split; [by left |]. by exists "sandbox".
        - split; [done |]. right. split; [done |]. split; [by left | done]. }
      destruct (String.eqb_spec v "testnet") as [-> | Ht]; cbn.
      { destruct (takes s c "network"); [right; right; right | right; left].
        - split; [done |]. split; [done |]. split; [by right |]. by exists "testnet".
        - split; [done |]. right. split; [done |]. split; [by right | done]. }
      left. split; [done |]. by exists v.
    + destruct (takes s c "network"); [right; right; right | right; left].
      * split; [done |]. split; [done |]. split; [done |]. by exists "sandbox".
      * split; [done |]. right. by split.
Qed.

(* The five ways init can end. *)
Lemma init_cases a1 a2 s :
  (~ accepted_by_init a1 a2
   /\ exists s1, init a1 a2 s = (Throw (Error invalid_arguments_msg), s1) /\ grown s s1)
  \/ (accepted_by_init a1 a2 /\ a1 = VNull /\ init a1 a2 s = (Throw TypeError, s))
  \/ (accepted_by_init a1 a2 /\ a1 <> VNull
      /\ network_missing s a1 = true
      /\ exists v s1,
           env s !! NEAR_WORKSPACES_NETWORK = Some v /\ v <> "sandbox" /\ v <> "testnet"
           /\ grown s s1
           /\ init a1 a2 s = (Throw (Error (invalid_network_msg v)), logged read_env s1))
  \/ (accepted_by_init a1 a2 /\ a1 <> VNull
      /\ config_locked s a1 = true
      /\ ((network_missing s a1 = false /\ init a1 a2 s = (Throw TypeError, s))
          \/ (network_missing s a1 = true /\ env_valid (env s)
              /\ init a1 a2 s = (Throw TypeError, logged read_env s))))
  \/ (accepted_by_init a1 a2 /\ a1 <> VNull
      /\ config_locked s a1 = false
      /\ (network_missing s a1 = false \/ env_valid (env s))
      /\ exists c fn x s1 s0,
           grown s s1
           /\ ((s0 = s1 /\ network_missing s a1 = false)
               \/ (s0 = logged read_env s1 /\ network_missing s a1 = true
                   /\ exists n, x = VString n /\ (getNetworkFromEnv s).1 = Normal n))
           /\ not_nullish x = true
           /\ (typeof fn = "function" \/ typeof fn = "undefined")
           /\ ((a1 = VObject c /\ fn = a2 /\ s1 = s
                /\ (network_missing s a1 = false -> x = lookup_prop s c "network"))
               \/ (typeof a1 <> "object" /\ heap s !! c = None))
           /\ init a1 a2 s = init_finish c fn x s0).
Proof.
  rewrite init_split.
  destruct (init_arguments_cases a1 a2 s)
    as [(Hno & s1 & -> & Hg) | (Hok & config & fn & s1 & -> & Hg & Hfn & Hshape)].
  { left. eauto. }
  right. destruct Hshape as [(Ha & -> & -> & ->) | (Ha & c & -> & Hnew & Hempty & Hattr)].
  - destruct a1; try discriminate.
    + left. by rewrite init_tail_null.
    + right. destruct (init_tail_cases l a2 s)
        as [(Hmiss & v & Hv & Hs & Ht & ->)
           | [(Hlock & Hhow)
           | [(Htakes & Hset & Hnn & ->)
           | (Htakes & Hmiss & Hvalid & n & Hn & ->)]]].
      * left. split; [done |]. split; [done |]. split; [done |].
        exists v, s. repeat split; try done. apply preserved_refl.
      * right. left. split; [done |]. split; [done |].
        split; [cbn; by rewrite Hlock |].
        destruct Hhow as [(Hset & ->) | (Hmiss & Hvalid & ->)]; [by left | by right].
      * right. right. split; [done |]. split; [done |].
        split; [cbn; by rewrite Htakes |]. split; [by left |].
        exists l, a2, (lookup_prop s l "network"), s, s.
        split; [apply grown_refl |]. split; [by left |]. split; [done |].
        split; [done |]. split; [by left | done].
      * right. right. split; [done |]. split; [done |].
        split; [cbn; by rewrite Htakes |]. split; [by right |].
        exists l, a2, (VString n), s, (logged read_env s).
        split; [apply grown_refl |]. split; [right; eauto |]. split; [done |].
        split; [done |]. split; [| done].
        left. split; [done |]. split; [done |]. split; [done |].
        intros Hset. congruence.
  - assert (Hnull : a1 <> VNull) by (intros ->; by apply Ha).
    assert (Hmissing : network_missing s a1 = true)
      by (destruct a1; try reflexivity; by destruct Ha).
    assert (Hunlocked : config_locked s a1 = false)
      by (destruct a1; try reflexivity; by destruct Ha).
    assert (Hown : own_props (heap s1) c !! "network" = None).
    { unfold own_props. by rewrite Hempty. }
    assert (Hmissing1 : network_missing s1 (VObject c) = true).
    { unfold network_missing. by rewrite (lookup_prop_none s1 c "network" Hown Hattr). }
    assert (Htakes1 : takes s1 c "network" = true) by (by apply takes_none).
    assert (Henv : env s1 = env s) by apply Hg.
    right. destruct (init_tail_cases c fn s1)
      as [(_ & v & Hv & Hs & Ht & ->)
         | [(Hlock & _)
         | [(_ & Hset & _)
         | (_ & _ & Hvalid & n & Hn & ->)]]]; try congruence.
    + left. split; [done |]. split; [done |]. split; [done |].
      exists v, s1. rewrite <- Henv.
      split; [done |]. split; [done |]. split; [done |]. split; [exact Hg | reflexivity].
    + right. right. split; [done |]. split; [done |]. split; [done |].
      split; [right; by rewrite <- Henv |].
      exists c, fn, (VString n), s1, (logged read_env s1).
      split; [exact Hg |]. split.
      { right. split; [done |]. split; [done |]. exists n. split; [done |].
        rewrite <- Hn. rewrite !getNetworkFromEnv_run, Henv.
        destruct (env s !! NEAR_WORKSPACES_NETWORK) as [v |]; [| done].
        by destruct (_ || _). }
      split; [done |]. split; [done |]. split; [by right | reflexivity].
Qed.

Lemma list_ascii_of_string_append a b :
  String.list_ascii_of_string (String.append a b)
  = String.list_ascii_of_string a ++ String.list_ascii_of_string b.
Proof.
  induction a as [| ch a IH]; [reflexivity |].
  change (ch :: String.list_ascii_of_string (String.append a b)
          = ch :: (String.list_ascii_of_string a ++ String.list_ascii_of_string b)).
  by rewrite IH.
Qed.

Lemma append_inj_r a b suffix :
  String.append a suffix = String.append b suffix -> a = b.
Proof.
  intros Heq. apply (f_equal String.list_ascii_of_string) in Heq.
  rewrite !list_ascii_of_string_append in Heq. apply app_inv_tail in Heq.
  apply (f_equal String.string_of_list_ascii) in Heq.
  by rewrite !String.string_of_list_ascii_of_string in Heq.
Qed.

(* The message tells which value was found. *)
Lemma invalid_network_msg_inj v v' :
  invalid_network_msg v = invalid_network_msg v' -> v = v'.
Proof.
  unfold invalid_network_msg. intros Heq.
  apply String.app_inj in Heq. by apply append_inj_r in Heq.
Qed.

Lemma invalid_network_msg_other {A} v :
  @Throw A (Error (invalid_network_msg v)) <> Throw (Error invalid_arguments_msg).
Proof. discriminate. Qed.


Lemma own_props_assigned c x s0 :
  own_props (assigned c x s0) c !! "network" = Some x.
Proof. unfold assigned. by rewrite own_props_insert_eq, lookup_insert_eq. Qed.

Lemma preserved_assigned c x s0 l m :
  l <> c -> heap s0 !! l = Some m -> assigned c x s0 !! l = Some m.
Proof. intros Hne Hl. unfold assigned. by rewrite lookup_insert_ne. Qed.

(* Everything known about a run of init that returned. *)
Lemma init_success_facts a1 a2 s ws s' :
  init a1 a2 s = (Normal ws, s') ->
  exists c fn x p s0,
    ((a1 = VObject c /\ fn = a2) \/ (typeof a1 <> "object" /\ heap s !! c = None))
    /\ (typeof fn = "function" \/ typeof fn = "undefined")
    /\ not_nullish x = true
    /\ env s0 = env s /\ world s0 = world s /\ preserved (heap s) (heap s0)
    /\ (log s0 = log s \/ log s0 = log s ++ [read_env])
    /\ heap s' = assigned c x s0 /\ env s' = env s
    /\ log s' = log s0 ++ [EvCreate (VObject c) fn]
    /\ rt_create (heap s') (VObject c) fn (world s) = (world s', p)
    /\ ws = new_Workspace p
    /\ attrs s' = attrs (put_prop c "network" x s0).
Proof.
  intros Hrun.
  destruct (init_cases a1 a2 s)
    as [(_ & s1 & Hthrow & _) | [(_ & _ & Hthrow)
       | [(_ & _ & _ & v & s1 & _ & _ & _ & _ & Hthrow)
       | [(_ & _ & _ & [(_ & Hthrow) | (_ & _ & Hthrow)])
       | (_ & _ & _ & _ & c & fn & x & s1 & s0 & Hg & Hs0 & Hx & Hfn & Hshape & Hfin)]]]];
    try (rewrite Hthrow in Hrun; discriminate).
  rewrite Hfin in Hrun.
  destruct (init_finish_returns c fn x s0) as (w & p & Hcreate & Hfinish).
  rewrite Hfinish in Hrun. inversion Hrun; subst ws s'. clear Hrun.
  destruct Hg as (He & Hw & Hl & Hh).
  exists c, fn, x, p, s0.
  split; [destruct Hshape as [(? & ? & _) | ?]; eauto |].
  split; [done |]. split; [done |].
  assert (Hs0' : env s0 = env s /\ world s0 = world s /\ heap s0 = heap s1
                 /\ (log s0 = log s \/ log s0 = log s ++ [read_env])).
  { destruct Hs0 as [[-> _] | [-> _]]; cbn; rewrite ?Hl; eauto. }
  destruct Hs0' as (He0 & Hw0 & Hh0 & Hl0).
  split; [done |]. split; [done |]. split; [by rewrite Hh0 |]. split; [done |].
  cbn -[put_prop]. split; [done |]. split; [done |]. split; [done |].
  split; [by rewrite <- Hw0 | done].
Qed.

Lemma async_returns_promise {A} (body : M W A) s :
  exists p, (async body s).1 = Normal p.
Proof. unfold async. destruct (body s) as [[] ?]; eauto. Qed.

Lemma clone_returns_promise this fn s :
  exists p, (clone this fn s).1 = Normal p.
Proof. apply async_returns_promise. Qed.

Lemma cloneSandbox_returns_promise this fn s :
  exists p, (cloneSandbox this fn s).1 = Normal p.
Proof. apply async_returns_promise. Qed.


Lemma init_object c f s :
  typeof f = "function" \/ typeof f = "undefined" ->
  init (VObject c) f s = init_tail (VObject c) f s.
Proof.
  intros Hf. rewrite init_split. unfold init_arguments, bind, default_configOrFunction, ret.
  by rewrite getConfigAndFn_object.
Qed.

(** C4. For every configuration object c and function f, the call with
    (c, f) resolves to exactly c as the configuration and f as the run
    function, without touching the state.  init then goes one of three
    ways: it hands that very pair to the runtime, which it does whenever
    the object takes the assignment of `network` and a network is there or
    can be resolved; or it throws the environment Error; or, the object not
    taking the assignment, it throws a TypeError -- in both of which cases
    the runtime is not called. *)
Theorem C4_config_and_function c lf s :
  getConfigAndFn (VObject c) (VFunction lf) s
  = (Normal (VObject c, VFunction lf), s)
  /\ ((takes s c "network" = true
       /\ exists ws s' pre,
            init (VObject c) (VFunction lf) s = (Normal ws, s')
            /\ log s' = log s ++ pre ++ [EvCreate (VObject c) (VFunction lf)]
            /\ (pre = [] \/ pre = [read_env]))
      \/ (exists v,
            env s !! NEAR_WORKSPACES_NETWORK = Some v
            /\ v <> "sandbox" /\ v <> "testnet"
            /\ init (VObject c) (VFunction lf) s
               = (Throw (Error (invalid_network_msg v)), logged read_env s))
      \/ (takes s c "network" = false
          /\ exists s',
               init (VObject c) (VFunction lf) s = (Throw TypeError, s')
               /\ (s' = s \/ s' = logged read_env s))).
Proof.
  split; [reflexivity |].
  rewrite init_object by (by left).
  destruct (init_tail_cases c (VFunction lf) s)
    as [(_ & v & Hv & Hs & Ht & ->)
       | [(Hlock & [(_ & ->) | (_ & _ & ->)])
       | [(Htakes & _ & _ & ->)
       | (Htakes & _ & _ & n & _ & ->)]]].
  - right. left. by exists v.
  - right. right. split; [done |]. eexists. split; [reflexivity | by left].
  - right. right. split; [done |]. eexists. split; [reflexivity | by right].
  - left. split; [done |].
    destruct (init_finish_returns c (VFunction lf) (lookup_prop s c "network") s)
      as (w & p & _ & ->).
    eexists _, _, []. split; [reflexivity |]. split; [reflexivity | by left].
  - left. split; [done |].
    destruct (init_finish_returns c (VFunction lf) (VString n) (logged read_env s))
      as (w & p & _ & ->).
    eexists _, _, [read_env]. split; [reflexivity |]. split; [| by right].
    cbn. by rewrite <- app_assoc.
Qed.

(** C9. For every function f, init called with (null, f) does not throw
    the 'Invalid arguments' Error: typeof null is 'object', so the
    classifier accepts null and returns it as the configuration, with f. *)
Theorem C9_null_accepted_by_classifier lf s :
  typeof VNull = "object"
  /\ getConfigAndFn VNull (VFunction lf) s = (Normal (VNull, VFunction lf), s)
  /\ (init VNull (VFunction lf) s).1 <> Throw (Error invalid_arguments_msg).
Proof.
  split; [reflexivity |]. split; [reflexivity |].
  rewrite init_null_config by (by left). discriminate.
Qed.

(** C6 (amended). init throws exactly when its arguments are invalid
    (neither accepted shape, or null as the configuration), or the
    environment variable is consulted and holds an invalid value, or --
    the third path -- the configuration object does not take the
    assignment of `network` (it is frozen, not extensible, or `network` is
    read-only).  What is thrown is always an error value: the 'Invalid
    arguments' Error, the Error about the environment variable, or a
    TypeError; init never hangs.  Besides init, getNetworkFromEnv throws
    exactly for an invalid value of the variable, and clone and cloneSandbox
    never throw: they return a promise. *)
Theorem C6_init_throws_iff a1 a2 s :
  ((exists e s', init a1 a2 s = (Throw e, s'))
   <-> (~ accepted_by_init a1 a2 \/ a1 = VNull)
       \/ (network_missing s a1 = true /\ ~ env_valid (env s))
       \/ config_locked s a1 = true)
  /\ (forall e s', init a1 a2 s = (Throw e, s') ->
        e = Error invalid_arguments_msg \/ e = TypeError
        \/ exists v, env s !! NEAR_WORKSPACES_NETWORK = Some v
                     /\ e = Error (invalid_network_msg v))
  /\ (init a1 a2 s).1 <> Blocked
  /\ ((exists e, (getNetworkFromEnv s).1 = Throw e) <-> ~ env_valid (env s))
  /\ (forall this fn, exists p, (clone this fn s).1 = Normal p)
  /\ (forall this fn, exists p, (cloneSandbox this fn s).1 = Normal p).
Proof.
  assert (Hinvalid : forall v, env s !! NEAR_WORKSPACES_NETWORK = Some v ->
                       v <> "sandbox" -> v <> "testnet" -> ~ env_valid (env s)).
  { intros v Hv Hs Ht. unfold env_valid. rewrite Hv. tauto. }
  split; [| split; [| split; [| split; [| split]]]].
  - destruct (init_cases a1 a2 s)
      as [(Hno & s1 & Hthrow & _) | [(Hok & Hnull & Hthrow)
         | [(Hok & Hnn & Hmiss & v & s1 & Hv & Hs & Ht & _ & Hthrow)
         | [(Hok & Hnn & Hlock & Hhow)
         | (Hok & Hnn & Hunlocked & Hcond & c & fn & x & s1 & s0 & _ & _ & _ & _ & _ & Hfin)]]]].
    + split; [tauto | eauto].
    + split; [tauto | eauto].
    + split; [| eauto]. intros _. right. left. split; [done |]. by eapply Hinvalid.
    + split; [tauto |]. intros _.
      destruct Hhow as [(_ & Hthrow) | (_ & _ & Hthrow)]; eauto.
    + destruct (init_finish_returns c fn x s0) as (w & p & _ & Hfinish).
      rewrite Hfin, Hfinish. split.
      * intros (e & s' & Heq). discriminate.
      * intros [[Hno | Hnull] | [[Hmiss Hbad] | Hlock]]; try done; try congruence.
        destruct Hcond; [congruence | done].
  - intros e s' Hrun.
    destruct (init_cases a1 a2 s)
      as [(_ & s1 & Hthrow & _) | [(_ & _ & Hthrow)
         | [(_ & _ & _ & v & s1 & Hv & _ & _ & _ & Hthrow)
         | [(_ & _ & _ & [(_ & Hthrow) | (_ & _ & Hthrow)])
         | (_ & _ & _ & _ & c & fn & x & s1 & s0 & _ & _ & _ & _ & _ & Hfin)]]]];
      try (rewrite Hthrow in Hrun; inversion Hrun; subst; eauto).
    destruct (init_finish_returns c fn x s0) as (w & p & _ & Hfinish).
    rewrite Hfin, Hfinish in Hrun. discriminate.
  - destruct (init_cases a1 a2 s)
      as [(_ & s1 & Hthrow & _) | [(_ & _ & Hthrow)
         | [(_ & _ & _ & v & s1 & Hv & _ & _ & _ & Hthrow)
         | [(_ & _ & _ & [(_ & Hthrow) | (_ & _ & Hthrow)])
         | (_ & _ & _ & _ & c & fn & x & s1 & s0 & _ & _ & _ & _ & _ & Hfin)]]]];
      try (by rewrite Hthrow).
    destruct (init_finish_returns c fn x s0) as (w & p & _ & Hfinish).
    by rewrite Hfin, Hfinish.
  - destruct (getNetworkFromEnv_cases s) as [(n & Hn & Hrun) | (v & Hv & Hs & Ht & Hrun)];
      rewrite Hrun; cbn.
    + split; [intros (e & He); discriminate |]. intros Hbad. exfalso. apply Hbad.
      unfold env_valid. rewrite getNetworkFromEnv_run in Hrun.
      destruct (env s !! NEAR_WORKSPACES_NETWORK) as [v |]; [| done].
      destruct (String.eqb_spec v "sandbox") as [-> | Hs]; [by left |].
      destruct (String.eqb_spec v "testnet") as [-> | Ht]; [by right |].
      discriminate.
    + split; [| eauto]. intros _. by eapply Hinvalid.
  - intros this fn. apply async_returns_promise.
  - intros this fn. apply async_returns_promise.
Qed.

(** C8 (amended). For a configuration object that takes the assignment
    of `network` (not frozen, extensible or already owning a writable
    `network`): when `config.network` reads null or undefined, init
    assigns the network resolved from the environment onto that very
    object, every other field of it and every other object staying as they
    were; when the object owns a network that is set, it goes to the
    runtime with the store unchanged and the environment is not read (no
    read is logged, and the outcome is the same under any other
    environment); when it only inherits a network that is set, that value
    is copied onto the object, again without reading the environment. *)
Theorem C8_network_assigned_in_place c m f s :
  heap s !! c = Some m ->
  typeof f = "function" \/ typeof f = "undefined" ->
  takes s c "network" = true ->
  ((lookup_prop s c "network" = VUndefined \/ lookup_prop s c "network" = VNull) ->
   forall n, (getNetworkFromEnv s).1 = Normal n ->
   exists ws s',
     init (VObject c) f s = (Normal ws, s')
     /\ heap s' !! c = Some (<["network" := VString n]> m)
     /\ (forall k, k <> "network" -> own_props (heap s') c !! k = m !! k)
     /\ (forall c', c' <> c -> heap s' !! c' = heap s !! c')
     /\ log s' = log s ++ [read_env; EvCreate (VObject c) f])
  /\
  (forall x, m !! "network" = Some x -> x <> VUndefined -> x <> VNull ->
   exists ws s',
     init (VObject c) f s = (Normal ws, s')
     /\ heap s' = heap s
     /\ log s' = log s ++ [EvCreate (VObject c) f]
     /\ forall e, init (VObject c) f (set_env e s) = (Normal ws, set_env e s'))
  /\
  (forall x, m !! "network" = None -> lookup_prop s c "network" = x ->
   x <> VUndefined -> x <> VNull ->
   exists ws s',
     init (VObject c) f s = (Normal ws, s')
     /\ heap s' !! c = Some (<["network" := x]> m)
     /\ (forall c', c' <> c -> heap s' !! c' = heap s !! c')
     /\ log s' = log s ++ [EvCreate (VObject c) f]).
Proof.
  intros Hc Hf Htakes.
  assert (Hprops : own_props (heap s) c = m) by (unfold own_props; by rewrite Hc).
  assert (Hnn : forall x, x <> VUndefined -> x <> VNull -> not_nullish x = true)
    by (intros x ? ?; by destruct x).
  rewrite init_object by done.
  split; [| split].
  - intros Hnull n Hn.
    destruct (init_tail_cases c f s)
      as [(_ & v & Hv & Hs & Ht & Hrun)
         | [(Hlock & _)
         | [(_ & Hset & _)
         | (_ & _ & _ & n' & Hn' & ->)]]]; try congruence.
    + rewrite getNetworkFromEnv_run, Hv in Hn.
      destruct (String.eqb_spec v "sandbox"); [done |].
      destruct (String.eqb_spec v "testnet"); [done |]. discriminate.
    + unfold network_missing in Hset. destruct Hnull as [Hu | Hu];
        rewrite Hu in Hset; discriminate.
    + assert (n' = n) as -> by congruence.
      destruct (init_finish_returns c f (VString n) (logged read_env s))
        as (w & p & _ & ->).
      eexists _, _. split; [reflexivity |]. cbn. rewrite Hprops.
      split; [by rewrite lookup_insert_eq |]. split; [| split].
      * intros k Hk. rewrite own_props_insert_eq. by rewrite lookup_insert_ne.
      * intros c' Hc'. by rewrite lookup_insert_ne.
      * by rewrite <- app_assoc.
  - intros x Hx Hundef Hnul.
    assert (Hread : forall t : state W, heap t = heap s -> attrs t = attrs s ->
                      lookup_prop t c "network" = x).
    { intros t Hh Ha. apply lookup_prop_own. by rewrite Hh, Hprops. }
    assert (Hrun : forall t : state W, heap t = heap s -> attrs t = attrs s ->
                     init_tail (VObject c) f t = init_finish c f x t).
    { intros t Hh Ha. rewrite init_tail_object. cbn zeta.
      rewrite (Hread t Hh Ha), (Hnn x Hundef Hnul).
      assert (takes t c "network" = takes s c "network") as ->
        by (unfold takes, owner, attrs_of; by rewrite Hh, Ha).
      by rewrite Htakes. }
    rewrite (Hrun s eq_refl eq_refl).
    unfold init_finish. cbn zeta.
    assert (Hsame : heap (put_prop c "network" x s) = heap s).
    { rewrite heap_put_prop, Hprops. rewrite (insert_id m "network" x Hx).
      by apply insert_id. }
    destruct (rt_create (heap (put_prop c "network" x s)) (VObject c) f (world s))
      as [w p] eqn:Hcreate.
    eexists _, _. split; [reflexivity |].
    split; [exact Hsame |]. split; [reflexivity |].
    intros e. rewrite init_object by done.
    rewrite (Hrun (set_env e s) eq_refl eq_refl).
    unfold init_finish. cbn zeta.
    change (heap (put_prop c "network" x (set_env e s)))
      with (heap (put_prop c "network" x s)).
    change (world (set_env e s)) with (world s).
    rewrite Hcreate. reflexivity.
  - intros x Hown Hread Hundef Hnul.
    rewrite init_tail_object. cbn zeta. rewrite Hread, (Hnn x Hundef Hnul), Htakes.
    destruct (init_finish_returns c f x s) as (w & p & _ & ->).
    eexists _, _. split; [reflexivity |]. cbn. rewrite Hprops.
    split; [by rewrite lookup_insert_eq |]. split; [| done].
    intros c' Hc'. by rewrite lookup_insert_ne.
Qed.

(** X4. Workspace.init returns a workspace exactly when its arguments have
    one of the accepted shapes, the configuration is not null, either a
    network is read from the configuration (its own or an inherited one)
    or the environment variable is unset, 'sandbox' or 'testnet', and the
    configuration object takes the assignment of `network`. *)
Theorem X4_init_returns_iff a1 a2 s :
  (exists ws s', init a1 a2 s = (Normal ws, s'))
  <-> accepted_by_init a1 a2 /\ a1 <> VNull
      /\ (network_missing s a1 = false \/ env_valid (env s))
      /\ config_locked s a1 = false.
Proof.
  destruct (init_cases a1 a2 s)
    as [(Hno & s1 & Hthrow & _) | [(Hok & Hnull & Hthrow)
       | [(Hok & Hnn & Hmiss & v & s1 & Hv & Hs & Ht & _ & Hthrow)
       | [(Hok & Hnn & Hlock & Hhow)
       | (Hok & Hnn & Hunlocked & Hcond & c & fn & x & s1 & s0 & _ & _ & _ & _ & _ & Hfin)]]]].
  - split; [intros (ws & s' & Hrun); rewrite Hthrow in Hrun; discriminate | tauto].
  - split; [intros (ws & s' & Hrun); rewrite Hthrow in Hrun; discriminate | tauto].
  - split; [intros (ws & s' & Hrun); rewrite Hthrow in Hrun; discriminate |].
    intros (_ & _ & [Hset | Hvalid] & _); [congruence |].
    unfold env_valid in Hvalid. rewrite Hv in Hvalid. tauto.
  - split; [| intros (_ & _ & _ & Hunlocked); congruence].
    intros (ws & s' & Hrun).
    destruct Hhow as [(_ & Hthrow) | (_ & _ & Hthrow)];
      rewrite Hthrow in Hrun; discriminate.
  - split; [done |]. intros _.
    destruct (init_finish_returns c fn x s0) as (w & p & _ & Hfinish).
    rewrite Hfin, Hfinish. eauto.
Qed.

(** X5. Workspace.init throws a TypeError exactly in two situations: the
    first argument is null and the second is a function or is missing, in
    which case the state is left as it was; or the arguments are accepted
    and the configuration object does not take the assignment of `network`
    (frozen, not extensible, read-only `network`) while a network is there
    to assign, read from the object or resolved from a valid environment. *)
Theorem X5_init_TypeError_iff a1 a2 s :
  ((init a1 a2 s).1 = Throw TypeError
   <-> (a1 = VNull /\ (typeof a2 = "function" \/ typeof a2 = "undefined"))
       \/ (accepted_by_init a1 a2 /\ config_locked s a1 = true
           /\ (network_missing s a1 = false \/ env_valid (env s))))
  /\ (a1 = VNull -> (init a1 a2 s).1 = Throw TypeError ->
      init a1 a2 s = (Throw TypeError, s)).
Proof.
  assert (Hnull : forall f, accepted_by_init VNull f
                            <-> (typeof f = "function" \/ typeof f = "undefined")).
  { intros f. unfold accepted_by_init. cbn. split; [| tauto].
    intros [[[? | ?] _] | [_ ?]]; try discriminate. done. }
  destruct (init_cases a1 a2 s)
    as [(Hno & s1 & Hthrow & _) | [(Hok & -> & Hthrow)
       | [(Hok & Hnn & Hmiss & v & s1 & Hv & Hs & Ht & _ & Hthrow)
       | [(Hok & Hnn & Hlock & Hhow)
       | (Hok & Hnn & Hunlocked & Hcond & c & fn & x & s1 & s0 & _ & _ & _ & _ & _ & Hfin)]]]].
  - rewrite Hthrow. cbn. split; [| discriminate]. split; [discriminate |].
    intros [[-> Hf] | (Hok & _)]; [| done]. exfalso. by apply Hno, Hnull.
  - rewrite Hthrow. cbn. split; [| done]. split; [| done]. intros _.
    left. split; [done |]. by apply Hnull.
  - rewrite Hthrow. cbn. split; [| discriminate]. split; [discriminate |].
    intros [[? _] | (_ & _ & [Hset | Hvalid])]; [done | congruence |].
    unfold env_valid in Hvalid. rewrite Hv in Hvalid. tauto.
  - split; [| intros ->; done].
    split; [intros _ | intros _].
    + right. split; [done |]. split; [done |].
      destruct Hhow as [(Hset & _) | (_ & Hvalid & _)]; [by left | by right].
    + destruct Hhow as [(_ & ->) | (_ & _ & ->)]; done.
  - destruct (init_finish_returns c fn x s0) as (w & p & _ & Hfinish).
    rewrite Hfin, Hfinish. cbn. split; [| discriminate].
    split; [discriminate |]. intros [[? _] | (_ & Hlock & _)]; [done | congruence].
Qed.

(** X6. Workspace.init throws the 'Invalid arguments' Error exactly when
    its arguments have neither accepted shape, an undefined first argument
    counting as the default function. *)
Theorem X6_init_invalid_arguments_iff a1 a2 s :
  (init a1 a2 s).1 = Throw (Error invalid_arguments_msg) <-> ~ accepted_by_init a1 a2.
Proof.
  destruct (init_cases a1 a2 s)
    as [(Hno & s1 & Hthrow & _) | [(Hok & -> & Hthrow)
       | [(Hok & Hnn & Hmiss & v & s1 & Hv & Hs & Ht & _ & Hthrow)
       | [(Hok & Hnn & Hlock & Hhow)
       | (Hok & Hnn & Hunlocked & Hcond & c & fn & x & s1 & s0 & _ & _ & _ & _ & _ & Hfin)]]]].
  - rewrite Hthrow. done.
  - rewrite Hthrow. cbn. split; [discriminate | tauto].
  - rewrite Hthrow. cbn. split; [| tauto].
    intros Heq. by apply invalid_network_msg_other in Heq.
  - assert (Hres : (init a1 a2 s).1 = Throw TypeError)
      by (destruct Hhow as [(_ & ->) | (_ & _ & ->)]; done).
    rewrite Hres. split; [discriminate | tauto].
  - destruct (init_finish_returns c fn x s0) as (w & p & _ & Hfinish).
    rewrite Hfin, Hfinish. cbn. split; [discriminate | tauto].
Qed.


(** X7. Workspace.init throws the Error about the environment variable
    exactly when the arguments are accepted, the configuration is not null
    and yields no network when read (its own and any inherited one being
    null, undefined or missing), and the variable is set to something
    other than 'sandbox' and 'testnet'; the message then names the value of
    the variable. *)
Theorem X7_init_invalid_environment_iff a1 a2 s :
  ((exists v, (init a1 a2 s).1 = Throw (Error (invalid_network_msg v)))
   <-> accepted_by_init a1 a2 /\ a1 <> VNull
       /\ network_missing s a1 = true /\ ~ env_valid (env s))
  /\ (forall v, (init a1 a2 s).1 = Throw (Error (invalid_network_msg v)) ->
      env s !! NEAR_WORKSPACES_NETWORK = Some v).
Proof.
  destruct (init_cases a1 a2 s)
    as [(Hno & s1 & Hthrow & _) | [(Hok & -> & Hthrow)
       | [(Hok & Hnn & Hmiss & v & s1 & Hv & Hs & Ht & _ & Hthrow)
       | [(Hok & Hnn & Hlock & Hhow)
       | (Hok & Hnn & Hunlocked & Hcond & c & fn & x & s1 & s0 & _ & _ & _ & _ & _ & Hfin)]]]].
  - rewrite Hthrow. cbn. split; [split; [| tauto] |].
    + intros (v & Heq). symmetry in Heq. by apply invalid_network_msg_other in Heq.
    + intros v Heq. symmetry in Heq. by apply invalid_network_msg_other in Heq.
  - rewrite Hthrow. cbn. split; [split; [| tauto] |].
    + intros (v & Heq). discriminate.
    + intros v Heq. discriminate.
  - rewrite Hthrow. cbn. split; [split |].
    + intros _. repeat split; try done. unfold env_valid. rewrite Hv. tauto.
    + intros _. by exists v.
    + intros v0 Heq. rewrite Hv. f_equal. apply invalid_network_msg_inj. congruence.
  - assert (Hres : (init a1 a2 s).1 = Throw TypeError)
      by (destruct Hhow as [(_ & ->) | (_ & _ & ->)]; done).
    rewrite Hres. split; [split |].
    + intros (v & Heq). discriminate.
    + intros (_ & _ & Hmiss & Hbad).
      destruct Hhow as [(Hset & _) | (_ & Hvalid & _)]; [congruence | done].
    + intros v Heq. discriminate.
  - destruct (init_finish_returns c fn x s0) as (w & p & _ & Hfinish).
    rewrite Hfin, Hfinish. cbn. split; [split |].
    + intros (v & Heq). discriminate.
    + intros (_ & _ & Hmiss & Hinvalid). destruct Hcond; [congruence | done].
    + intros v Heq. discriminate.
Qed.

(** X8. When Workspace.init throws, nothing has happened outside it: the
    runtime was not called and its state is as before, process.env is as
    before, every object of the store has the properties it had, and at
    most the read of the environment variable was logged. *)
Theorem X8_init_throw_leaves_no_trace a1 a2 s e s' :
  init a1 a2 s = (Throw e, s') ->
  env s' = env s /\ world s' = world s
  /\ preserved (heap s) (heap s')
  /\ (log s' = log s \/ log s' = log s ++ [read_env]).
Proof.
  intros Hrun.
  destruct (init_cases a1 a2 s)
    as [(_ & s1 & Hthrow & Hg) | [(_ & _ & Hthrow)
       | [(_ & _ & _ & v & s1 & _ & _ & _ & Hg & Hthrow)
       | [(_ & _ & _ & [(_ & Hthrow) | (_ & _ & Hthrow)])
       | (_ & _ & _ & _ & c & fn & x & s1 & s0 & _ & _ & _ & _ & _ & Hfin)]]]].
  - rewrite Hthrow in Hrun. inversion Hrun; subst.
    destruct Hg as (He & Hw & Hl & Hh). by repeat split; [.. | left].
  - rewrite Hthrow in Hrun. inversion Hrun; subst.
    repeat split; [apply preserved_refl | by left].
  - rewrite Hthrow in Hrun. inversion Hrun; subst.
    destruct Hg as (He & Hw & Hl & Hh). cbn. rewrite Hl.
    by repeat split; [.. | right].
  - rewrite Hthrow in Hrun. inversion Hrun; subst.
    repeat split; [apply preserved_refl | by left].
  - rewrite Hthrow in Hrun. inversion Hrun; subst.
    repeat split; [apply preserved_refl | by right].
  - destruct (init_finish_returns c fn x s0) as (w & p & _ & Hfinish).
    rewrite Hfin, Hfinish in Hrun. discriminate.
Qed.

(** X9. When Workspace.init returns, it has called the runtime exactly
    once, as the last thing it did and after at most one read of the
    environment; the configuration handed over is an object which by then
    carries a network that is neither null nor undefined, the run function
    is a function or undefined, all other objects are as they were, and
    the workspace is built from the promise that very call returned. *)
Theorem X9_init_return_postcondition a1 a2 s ws s' :
  init a1 a2 s = (Normal ws, s') ->
  exists c fn p,
    (log s' = log s ++ [EvCreate (VObject c) fn]
     \/ log s' = log s ++ [read_env; EvCreate (VObject c) fn])
    /\ (typeof fn = "function" \/ typeof fn = "undefined")
    /\ not_nullish (default VUndefined (own_props (heap s') c !! "network")) = true
    /\ env s' = env s
    /\ (forall l m, l <> c -> heap s !! l = Some m -> heap s' !! l = Some m)
    /\ rt_create (heap s') (VObject c) fn (world s) = (world s', p)
    /\ ws = new_Workspace p.
Proof.
  intros Hrun.
  destruct (init_success_facts a1 a2 s ws s' Hrun)
    as (c & fn & x & p & s0 & _ & Hfn & Hx & He0 & Hw0 & Hh0 & Hl0 & Hh & He & Hl & Hcreate
        & Hws & _).
  exists c, fn, p. split.
  { rewrite Hl. destruct Hl0 as [-> | ->]; [by left | right]. by rewrite <- app_assoc. }
  split; [done |]. split; [by rewrite Hh, own_props_assigned |].
  split; [done |]. split; [| done].
  intros l m Hne Hlm. rewrite Hh. apply preserved_assigned; [done |]. by apply Hh0.
Qed.

(** X10. Once Workspace.init has returned for a configuration object, the
    network is pinned in that object: any later init with the same object,
    under any environment (an invalid one too) and with any run function,
    returns as well, without reading the environment and without changing
    the store. *)
Theorem X10_init_pins_network c f s ws s' :
  init (VObject c) f s = (Normal ws, s') ->
  forall e f', typeof f' = "function" \/ typeof f' = "undefined" ->
  exists ws' s'',
    init (VObject c) f' (set_env e s') = (Normal ws', s'')
    /\ heap s'' = heap s'
    /\ log s'' = log s' ++ [EvCreate (VObject c) f'].
Proof.
  intros Hrun e f' Hf'.
  destruct (init_success_facts _ _ s ws s' Hrun)
    as (c0 & fn & x & p & s0 & Hshape & _ & Hx & _ & _ & _ & _ & Hh & _ & _ & _ & _ & Ha).
  destruct Hshape as [[Hc _] | [Hobj _]]; [| by destruct Hobj].
  inversion Hc; subst c0. clear Hc.
  destruct (assigned_then s0 (set_env e s') c "network" x) as [Hread Htakes];
    [exact Hh | exact Ha |].
  rewrite init_object by done. rewrite init_tail_object. cbn zeta.
  rewrite Hread, Hx, Htakes.
  destruct (init_finish_returns c f' x (set_env e s')) as (w & q & _ & ->).
  eexists _, _. split; [reflexivity |]. split; [| reflexivity].
  cbn. unfold own_props. rewrite Hh. unfold assigned.
  rewrite lookup_insert_eq. cbn. by rewrite !insert_insert_eq.
Qed.


(* ---- the constructor ---- *)

(* `this.container` is set exactly when `this.ready` is fulfilled. *)
Lemma new_Workspace_ready p :
  ready (new_Workspace p) = Fulfilled tt
  <-> exists c, p = Fulfilled c /\ container (new_Workspace p) = Some c.
Proof.
  destruct p as [c | e |]; cbn; split; try discriminate; eauto;
    intros (c' & Hp & _); discriminate.
Qed.

(* ---- clone ---- *)

Lemma clone_run this fn s :
  clone this fn s =
  let s1 := logged EvAwaitReady s in
  match ready this with
  | Fulfilled _ =>
      match container this with
      | None => (Normal (Rejected TypeError), s1)
      | Some c =>
          let '(w1, p) := rt_createFrom c (world s) in
          let s2 := logged EvAwaitDerived (set_world w1 (logged (EvCreateFrom c) s1)) in
          match p with
          | Fulfilled d =>
              let '(w2, q) := rt_clone d fn w1 in
              (Normal (settle q d),
               logged EvAwaitCallback (set_world w2 (logged (EvContainerClone d fn) s2)))
          | Rejected e => (Normal (Rejected e), s2)
          | Pending => (Normal Pending, s2)
          end
      end
  | Rejected e => (Normal (Rejected e), s1)
  | Pending => (Normal Pending, s1)
  end.
Proof.
  js_run. destruct (ready this) as [[] | e |]; try reflexivity.
  destruct (container this) as [c |]; [| reflexivity]. js_simpl.
  destruct (rt_createFrom c (world s)) as [w1 [d | e |]]; try reflexivity.
  js_simpl. destruct (rt_clone d fn w1) as [w2 [[] | e |]]; reflexivity.
Qed.

Ltac trace_mem :=
  unfold full_trace in *;
  repeat match goal with
  | H : _ ∈ [] |- _ => apply elem_of_nil in H; destruct H
  | H : _ ∈ _ :: _ |- _ => apply elem_of_cons in H; destruct H as [H | H]
  | H : EvCreateFrom _ = _ |- _ => inversion H; clear H; subst
  | H : EvContainerClone _ _ = _ |- _ => inversion H; clear H; subst
  end.


Ltac trace_in :=
  unfold full_trace;
  repeat first [apply list_elem_of_here | apply list_elem_of_further].

Ltac trace_out :=
  unfold full_trace in *;
  repeat match goal with
  | H : _ ∈ [] |- _ => apply elem_of_nil in H; destruct H
  | H : _ ∈ _ :: _ |- _ => apply elem_of_cons in H; destruct H as [H | H]
  | H : exists _, _ |- _ => destruct H as [? H]
  | H : @eq event _ _ |- _ => first [discriminate H | inversion H; clear H; subst]
  end.

(** C7. clone suspends strictly in sequence.  What it adds to the log
    always begins with the await of readiness and is an initial part of
    await ready, createFrom, await derived container, container.clone(fn),
    await callback.  createFrom is called, on the resolved container,
    exactly when readiness is fulfilled, and its promise is then awaited;
    the callback is handed over, to the container createFrom yielded,
    exactly when that promise is fulfilled, and is then awaited; and the
    promise clone returns is fulfilled with d exactly when readiness, the
    derivation of d and the callback are all fulfilled, the whole sequence
    having been gone through. *)
Theorem C7_clone_sequential this fn s :
  exists tr,
    log (clone this fn s).2 = log s ++ tr
    /\ (exists rest, tr = EvAwaitReady :: rest)
    /\ (exists c d, tr `prefix_of` full_trace c d fn)
    /\ (forall c, EvCreateFrom c ∈ tr <->
          ready this = Fulfilled tt /\ container this = Some c)
    /\ (EvAwaitDerived ∈ tr <-> exists c, EvCreateFrom c ∈ tr)
    /\ (forall d g, EvContainerClone d g ∈ tr <->
          g = fn /\ exists c, ready this = Fulfilled tt /\ container this = Some c
                              /\ (rt_createFrom c (world s)).2 = Fulfilled d)
    /\ (EvAwaitCallback ∈ tr <-> exists d, EvContainerClone d fn ∈ tr)
    /\ (forall d, (clone this fn s).1 = Normal (Fulfilled d) <->
          exists c, ready this = Fulfilled tt /\ container this = Some c
                    /\ (rt_createFrom c (world s)).2 = Fulfilled d
                    /\ (rt_clone d fn (rt_createFrom c (world s)).1).2 = Fulfilled tt)
    /\ (forall d, (clone this fn s).1 = Normal (Fulfilled d) ->
          exists c, tr = full_trace c d fn).
Proof.
  rewrite clone_run. cbn zeta.
  set (c0 := mkContainer 0 VUndefined).
  destruct (ready this) as [[] | e |].
  2,3: exists [EvAwaitReady]; cbn; split; [done |]; split; [by eexists |];
       split; [exists c0, c0; by eexists |];
       split; [intros c; split; [intros Hin; trace_out | intros [? _]; discriminate] |];
       split; [split; intros Hin; trace_out |];
       split; [intros d g; split; [intros Hin; trace_out
                                  | intros (_ & c & ? & _); discriminate] |];
       split; [split; intros Hin; trace_out |];
       split; [intros d; split; [discriminate | intros (c & ? & _); discriminate] |];
       intros d; discriminate.
  destruct (container this) as [c |].
  2: { exists [EvAwaitReady]; cbn; split; [done |]. split; [by eexists |].
       split; [exists c0, c0; by eexists |].
       split; [intros c; split; [intros Hin; trace_out | intros [_ ?]; discriminate] |].
       split; [split; intros Hin; trace_out |].
       split; [intros d g; split; [intros Hin; trace_out
                                  | intros (_ & c & _ & ? & _); discriminate] |].
       split; [split; intros Hin; trace_out |].
       split; [intros d; split; [discriminate | intros (c & _ & ? & _); discriminate] |].
       intros d; discriminate. }
  destruct (rt_createFrom c (world s)) as [w1 [d | e |]] eqn:Hfrom.
  2,3: exists [EvAwaitReady; EvCreateFrom c; EvAwaitDerived]; cbn;
       split; [by rewrite <- !app_assoc |]; split; [by eexists |];
       split; [exists c, c0; by eexists |];
       split; [intros c'; split; [intros Hin; trace_out; done
                                 | intros [_ Hc']; inversion Hc'; subst; trace_in] |];
       split; [split; [intros _; exists c; trace_in | intros _; trace_in] |];
       split; [intros d g; split; [intros Hin; trace_out
                 | intros (_ & c' & _ & Hc' & Hd); inversion Hc'; subst c';
                   rewrite Hfrom in Hd; discriminate] |];
       split; [split; intros Hin; trace_out |];
       split; [intros d; split; [discriminate
                 | intros (c' & _ & Hc' & Hd & _); inversion Hc'; subst c';
                   rewrite Hfrom in Hd; discriminate] |];
       intros d; discriminate.
  destruct (rt_clone d fn w1) as [w2 q] eqn:Hclone.
  exists (full_trace c d fn). cbn.
  split; [by rewrite <- !app_assoc |]. split; [by eexists |].
  split; [exists c, d; done |].
  split.
  { intros c'; split; [intros Hin; trace_out; done |].
    intros [_ Hc']; inversion Hc'; subst. trace_in. }
  split; [split; [intros _; exists c; trace_in | intros _; trace_in] |].
  split.
  { intros d' g. split.
    - intros Hin. trace_out. split; [done |]. exists c. by rewrite Hfrom.
    - intros (-> & c' & _ & Hc' & Hd). inversion Hc'; subst c'.
      rewrite Hfrom in Hd. cbn in Hd. inversion Hd; subst d'. trace_in. }
  split; [split; [intros _; exists d; trace_in | intros _; trace_in] |].
  split.
  { intros d'. split.
    - intros Hres.
      destruct q as [[] | e |]; cbn in Hres; inversion Hres; subst d'.
      exists c. rewrite Hfrom. cbn. by rewrite Hclone.
    - intros (c' & _ & Hc' & Hd & Hq). inversion Hc'; subst c'.
      rewrite Hfrom in Hd, Hq. cbn in Hd, Hq. inversion Hd; subst d'.
      rewrite Hclone in Hq. cbn in Hq. by rewrite Hq. }
  intros d' Hres. exists c.
  destruct q as [[] | e |]; cbn in Hres; inversion Hres; subst d'. done.
Qed.
(* ---- cloneSandbox ---- *)

Lemma cloneSandbox_other_network this fn s c net :
  container this = Some c ->
  (get_prop (config c) "network" s).1 = Normal net ->
  strict_eq_string net "sandbox" = false ->
  cloneSandbox this fn s
  = (Normal (settle (ready this) None), logged EvAwaitReady s).
Proof.
  intros Hc Hnet Hneq.
  unfold cloneSandbox, async, bind at 1 2 3 4, emit, await at 1, this_container, ret, throw.
  destruct (ready this) as [[] | e |]; try reflexivity.
  rewrite Hc.
  assert (Hget : get_prop (config c) "network" (logged EvAwaitReady s)
                 = (Normal net, logged EvAwaitReady s)).
  { unfold get_prop in Hnet |- *.
    destruct (config c); cbn -[lookup_prop] in Hnet |- *; try discriminate;
      injection Hnet as <-; reflexivity. }
  rewrite Hget, Hneq. reflexivity.
Qed.

(** C5. For every callback fn, on a workspace whose container is
    configured for the network 'testnet', cloneSandbox does nothing but
    wait for readiness: store, environment and runtime stay as they were
    and the await is all that is logged, so no container is derived and fn
    is handed to nobody; and once readiness is reached it returns null. *)
Theorem C5_cloneSandbox_noop_on_testnet this fn s c :
  container this = Some c ->
  (get_prop (config c) "network" s).1 = Normal (VString "testnet") ->
  let s' := (cloneSandbox this fn s).2 in
  heap s' = heap s /\ env s' = env s /\ world s' = world s
  /\ log s' = log s ++ [EvAwaitReady]
  /\ (forall ev, ev ∈ drop (length (log s)) (log s') -> ev = EvAwaitReady)
  /\ (ready this = Fulfilled tt ->
      (cloneSandbox this fn s).1 = Normal (Fulfilled None)).
Proof.
  intros Hc Hnet.
  rewrite (cloneSandbox_other_network this fn s c _ Hc Hnet eq_refl). cbn.
  repeat split; try done.
  - intros ev Hev. rewrite drop_app_length in Hev. by trace_mem.
  - by intros ->.
Qed.

(* ---- getConfigAndFn ---- *)

(** X1. getConfigAndFn returns exactly for the two accepted shapes of
    arguments (a function alone; an object with a function or with
    nothing) and throws the 'Invalid arguments' Error, leaving the state
    as it was, exactly for all the others. *)
Theorem X1_getConfigAndFn_accepts_iff a f s :
  (accepted a f <-> exists r s', getConfigAndFn a f s = (Normal r, s'))
  /\ (~ accepted a f <->
      getConfigAndFn a f s = (Throw (Error invalid_arguments_msg), s)).
Proof.
  split; split.
  - intros Hok. destruct (getConfigAndFn_accepted a f s Hok) as (cfg & s' & Hrun & _).
    eauto.
  - intros (r & s' & Hrun). destruct (accepted_dec a f) as [Hok | Hno]; [done |].
    rewrite (getConfigAndFn_rejected a f s Hno) in Hrun. discriminate.
  - apply getConfigAndFn_rejected.
  - intros Hthrow Hok.
    destruct (getConfigAndFn_accepted a f s Hok) as (cfg & s' & Hrun & _).
    rewrite Hrun in Hthrow. discriminate.
Qed.

(** X2. Whatever getConfigAndFn returns is a configuration whose typeof is
    'object' paired with a run function that is a function or undefined;
    the environment, the runtime and the log are not touched and every
    object of the store keeps its properties. *)
Theorem X2_getConfigAndFn_result_shape a f s cfg fn s' :
  getConfigAndFn a f s = (Normal (cfg, fn), s') ->
  typeof cfg = "object"
  /\ (typeof fn = "function" \/ typeof fn = "undefined")
  /\ env s' = env s /\ world s' = world s /\ log s' = log s
  /\ preserved (heap s) (heap s').
Proof.
  intros Hrun.
  destruct (accepted_dec a f) as [Hok | Hno].
  2: { rewrite (getConfigAndFn_rejected a f s Hno) in Hrun. discriminate. }
  destruct (getConfigAndFn_accepted a f s Hok) as (cfg' & s1 & Hrun' & Hshape).
  rewrite Hrun' in Hrun. inversion Hrun; subst cfg' fn s1. clear Hrun Hrun'.
  destruct Hok as [[Ha Hf] | [Ha Hf]]; rewrite Ha in Hshape |- *; cbn in Hshape |- *.
  - destruct Hshape as [-> ->]. cbn.
    repeat split; try done; [by left | apply preserved_fresh].
  - destruct Hshape as [-> ->]. repeat split; try done. apply preserved_refl.
Qed.

(** X3. The empty configuration made for a function-only call is a new
    object every time: it is none of the objects of the store, and two
    calls in a row yield two different objects, so that what is assigned
    onto one is not seen through the other. *)
Theorem X3_default_config_not_shared l1 l2 s :
  exists c1 c2 s1 s2,
    getConfigAndFn (VFunction l1) VUndefined s = (Normal (VObject c1, VFunction l1), s1)
    /\ getConfigAndFn (VFunction l2) VUndefined s1 = (Normal (VObject c2, VFunction l2), s2)
    /\ heap s !! c1 = None
    /\ c1 <> c2
    /\ forall x, own_props (assigned c1 x s2) c2 = ∅.
Proof.
  eexists _, _, _, _. split; [apply getConfigAndFn_function |].
  split; [apply getConfigAndFn_function |]. cbn.
  set (c1 := fresh (dom (heap s))).
  set (c2 := fresh (dom (<[c1 := ∅]> (heap s)))).
  assert (Hne : c1 <> c2).
  { intros Heq. pose proof (is_fresh (dom (<[c1 := ∅]> (heap s)))) as Hfresh.
    apply Hfresh. fold c2. rewrite <- Heq. apply elem_of_dom.
    rewrite lookup_insert_eq. eauto. }
  split; [apply not_elem_of_dom, is_fresh |]. split; [done |].
  intros x. unfold assigned, own_props. cbn.
  rewrite lookup_insert_ne by done. by rewrite lookup_insert_eq.
Qed.

(* ---- the environment ---- *)

(** X11. getNetworkFromEnv always completes, and what it returns is one of
    the two names 'sandbox' and 'testnet' (its declared type); what it
    throws is the Error naming the value found in the variable; in every
    case it only reads: store, environment and runtime are as before. *)
Theorem X11_getNetworkFromEnv_range s :
  match (getNetworkFromEnv s).1 with
  | Normal n => n = "sandbox" \/ n = "testnet"
  | Throw e => exists v, env s !! NEAR_WORKSPACES_NETWORK = Some v
                         /\ v <> "sandbox" /\ v <> "testnet"
                         /\ e = Error (invalid_network_msg v)
  | Blocked => False
  end
  /\ heap (getNetworkFromEnv s).2 = heap s
  /\ env (getNetworkFromEnv s).2 = env s
  /\ world (getNetworkFromEnv s).2 = world s.
Proof.
  rewrite getNetworkFromEnv_state. split; [| done].
  destruct (getNetworkFromEnv_cases s) as [(n & Hn & ->) | (v & Hv & Hs & Ht & ->)]; cbn.
  - done.
  - by exists v.
Qed.

(** X12. networkIsSandbox() is true exactly when the variable is unset or
    is 'sandbox' (sandbox is the default), false exactly when it is
    'testnet', and throws exactly when the variable holds anything else;
    networkIsTestnet() throws in the same cases, with the same Error. *)
Theorem X12_networkIsSandbox_iff s :
  ((networkIsSandbox s).1 = Normal true
   <-> env s !! NEAR_WORKSPACES_NETWORK = None
       \/ env s !! NEAR_WORKSPACES_NETWORK = Some "sandbox")
  /\ ((networkIsSandbox s).1 = Normal false
      <-> env s !! NEAR_WORKSPACES_NETWORK = Some "testnet")
  /\ ((exists e, (networkIsSandbox s).1 = Throw e) <-> ~ env_valid (env s))
  /\ (forall e, (networkIsSandbox s).1 = Throw e <-> (networkIsTestnet s).1 = Throw e).
Proof.
  rewrite networkIsSandbox_run, networkIsTestnet_run, getNetworkFromEnv_run.
  unfold env_valid.
  destruct (env s !! NEAR_WORKSPACES_NETWORK) as [v |]; cbn.
  2: { repeat split; try naive_solver. }
  destruct (String.eqb_spec v "sandbox") as [-> | Hs]; cbn;
    [repeat split; naive_solver |].
  destruct (String.eqb_spec v "testnet") as [-> | Ht]; cbn;
    [repeat split; naive_solver |].
  repeat split; try naive_solver.
Qed.

(* ---- clone and cloneSandbox on a constructed workspace ---- *)

(** X13. On a workspace made by the constructor, the promise clone returns
    is rejected only with an error that came from the runtime: the
    rejection of the container promise given to the constructor, of
    createFrom, or of the derived container's clone.  The layer adds no
    rejection of its own. *)
Theorem X13_clone_rejection_provenance p fn s e :
  (clone (new_Workspace p) fn s).1 = Normal (Rejected e) ->
  p = Rejected e
  \/ exists c, p = Fulfilled c
       /\ ((rt_createFrom c (world s)).2 = Rejected e
           \/ exists d, (rt_createFrom c (world s)).2 = Fulfilled d
                /\ (rt_clone d fn (rt_createFrom c (world s)).1).2 = Rejected e).
Proof.
  rewrite clone_run. cbn zeta.
  destruct p as [c | e' |]; cbn.
  - intros Hres. right. exists c. split; [done |].
    destruct (rt_createFrom c (world s)) as [w1 [d | e1 |]]; cbn in Hres |- *.
    + right. exists d. split; [done |].
      destruct (rt_clone d fn w1) as [w2 [[] | e2 |]]; cbn in Hres |- *; congruence.
    + left. congruence.
    + discriminate.
  - intros Hres. left. congruence.
  - discriminate.
Qed.

(* All the ways cloneSandbox can go. *)
Lemma cloneSandbox_cases this fn s :
  let s1 := logged EvAwaitReady s in
  (exists e, ready this = Rejected e /\ cloneSandbox this fn s = (Normal (Rejected e), s1))
  \/ (ready this = Pending /\ cloneSandbox this fn s = (Normal Pending, s1))
  \/ (ready this = Fulfilled tt /\ container this = None
      /\ cloneSandbox this fn s = (Normal (Rejected TypeError), s1))
  \/ (exists c, ready this = Fulfilled tt /\ container this = Some c
        /\ (get_prop (config c) "network" s).1 = Throw TypeError
        /\ (config c = VNull \/ config c = VUndefined)
        /\ cloneSandbox this fn s = (Normal (Rejected TypeError), s1))
  \/ (exists c net, ready this = Fulfilled tt /\ container this = Some c
        /\ (get_prop (config c) "network" s).1 = Normal net
        /\ strict_eq_string net "sandbox" = false
        /\ cloneSandbox this fn s = (Normal (Fulfilled None), s1))
  \/ (exists c p s', ready this = Fulfilled tt /\ container this = Some c
        /\ (get_prop (config c) "network" s).1 = Normal (VString "sandbox")
        /\ clone this fn s1 = (Normal p, s')
        /\ cloneSandbox this fn s = (Normal (promise_map Some p), s')).
Proof.
  cbn zeta.
  destruct (ready this) as [[] | e |] eqn:Hready.
  2: { left. exists e. split; [done |]. unfold cloneSandbox, async, bind, emit, await.
       by rewrite Hready. }
  2: { right. left. split; [done |]. unfold cloneSandbox, async, bind, emit, await.
       by rewrite Hready. }
  right. right.
  destruct (container this) as [c |] eqn:Hc.
  2: { left. split; [done |]. split; [done |].
       unfold cloneSandbox, async, bind, emit, await, this_container, throw.
       by rewrite Hready, Hc. }
  right.
  destruct (get_prop (config c) "network" s) as [[net | e |] s0] eqn:Hget.
  - destruct (strict_eq_string net "sandbox") eqn:Heq.
    + right. right. exists c.
      assert (net = VString "sandbox") as ->.
      { destruct net; try discriminate. cbn in Heq. by apply String.eqb_eq in Heq as ->. }
      destruct (clone this fn (logged EvAwaitReady s)) as [r s'] eqn:Hclone.
      destruct (clone_returns_promise this fn (logged EvAwaitReady s)) as (p & Hp).
      rewrite Hclone in Hp. cbn in Hp. subst r.
      exists p, s'. split; [done |]. split; [done |]. split; [by rewrite Hget |].
      split; [done |].
      unfold cloneSandbox, async, bind at 1 2 3 4, emit, await at 1, this_container, ret.
      rewrite Hready, Hc.
      assert (Hget' : get_prop (config c) "network" (logged EvAwaitReady s)
                      = (Normal (VString "sandbox"), logged EvAwaitReady s)).
      { unfold get_prop in Hget |- *.
        destruct (config c); cbn -[lookup_prop] in Hget |- *; try discriminate;
          injection Hget as Hval _; change (lookup_prop (logged EvAwaitReady s))
                                      with (lookup_prop s); by rewrite Hval. }
      rewrite Hget'. cbn [strict_eq_string String.eqb Ascii.eqb Bool.eqb].
      unfold bind. rewrite Hclone. by destruct p.
    + right. left. exists c, net. split; [done |]. split; [done |].
      split; [by rewrite Hget |]. split; [done |].
      rewrite (cloneSandbox_other_network this fn s c net Hc); [| by rewrite Hget | done].
      by rewrite Hready.
  - left. exists c.
    assert (Hcfg : (config c = VNull \/ config c = VUndefined) /\ e = TypeError).
    { unfold get_prop in Hget. destruct (config c); inversion Hget; subst; eauto. }
    destruct Hcfg as [Hcfg ->]. split; [done |]. split; [done |].
    split; [by rewrite Hget |]. split; [done |].
    unfold cloneSandbox, async, bind, emit, await, this_container, ret.
    rewrite Hready, Hc. unfold get_prop. by destruct Hcfg as [-> | ->].
  - unfold get_prop in Hget. destruct (config c); discriminate.
Qed.

(** X14. In sandbox mode cloneSandbox is clone: on a ready workspace
    whose container is configured for 'sandbox', it runs clone (after its
    own await of readiness), ends in the state clone ends in, and its
    promise settles as clone's does, fulfilled with the same derived
    container. *)
Theorem X14_cloneSandbox_is_clone_on_sandbox this fn s c :
  ready this = Fulfilled tt ->
  container this = Some c ->
  (get_prop (config c) "network" s).1 = Normal (VString "sandbox") ->
  exists p s',
    clone this fn (logged EvAwaitReady s) = (Normal p, s')
    /\ cloneSandbox this fn s = (Normal (promise_map Some p), s').
Proof.
  intros Hready Hc Hnet.
  destruct (cloneSandbox_cases this fn s)
    as [(e & Hr & _) | [(Hr & _) | [(_ & Hnone & _) | [(c' & _ & Hc' & Hthrow & _)
       | [(c' & net & _ & Hc' & Hnet' & Hneq & _)
       | (c' & p & s' & _ & _ & _ & Hclone & Hrun)]]]]]; try congruence.
  - rewrite Hc in Hc'. inversion Hc'; subst c'. rewrite Hnet in Hnet'.
    inversion Hnet'; subst net. discriminate.
  - eauto.
Qed.

(** X15. The promise of cloneSandbox is fulfilled with null exactly when
    readiness is fulfilled and the network of the container's
    configuration is not the string 'sandbox' (another string, a value of
    another type, or no network at all). *)
Theorem X15_cloneSandbox_null_iff this fn s :
  (cloneSandbox this fn s).1 = Normal (Fulfilled None)
  <-> ready this = Fulfilled tt
      /\ exists c net, container this = Some c
           /\ (get_prop (config c) "network" s).1 = Normal net
           /\ strict_eq_string net "sandbox" = false.
Proof.
  split.
  - intros Hnull.
    destruct (cloneSandbox_cases this fn s)
      as [(e & _ & Hrun) | [(_ & Hrun) | [(_ & _ & Hrun) | [(c & _ & _ & _ & _ & Hrun)
         | [(c & net & Hr & Hc & Hnet & Hneq & _)
         | (c & p & s' & _ & _ & _ & _ & Hrun)]]]]];
      try (rewrite Hrun in Hnull; discriminate).
    + eauto 10.
    + rewrite Hrun in Hnull. destruct p; discriminate.
  - intros (Hready & c & net & Hc & Hnet & Hneq).
    rewrite (cloneSandbox_other_network this fn s c net Hc Hnet Hneq). cbn.
    by rewrite Hready.
Qed.

(** X16. A container whose configuration is null or undefined makes
    cloneSandbox reject: the promise is rejected with a TypeError (nothing
    is thrown to the caller, null is not returned) and the runtime is not
    called. *)
Theorem X16_cloneSandbox_without_config this fn s c :
  ready this = Fulfilled tt ->
  container this = Some c ->
  config c = VNull \/ config c = VUndefined ->
  cloneSandbox this fn s = (Normal (Rejected TypeError), logged EvAwaitReady s).
Proof.
  intros Hready Hc Hcfg.
  unfold cloneSandbox, async, bind, emit, await, this_container, ret.
  rewrite Hready, Hc. unfold get_prop. by destruct Hcfg as [-> | ->].
Qed.

(* ---- __importDefault ---- *)

(** X17. __importDefault never throws, not even for null or undefined.  It
    returns its argument itself, touching nothing, exactly when that is an
    object (or function) whose `__esModule` property is truthy; in every
    other case it returns a new object, distinct from all existing ones,
    whose only property `default` reads back the argument, and every
    existing object keeps its properties. *)
Theorem X17_importDefault_wraps mod_ s :
  exists r s',
    __importDefault mod_ s = (Normal r, s')
    /\ grown s s'
    /\ ((r = mod_ /\ s' = s
         /\ exists l, (mod_ = VObject l \/ mod_ = VFunction l)
              /\ truthy (lookup_prop s l "__esModule") = true)
        \/ (exists l, r = VObject l
              /\ heap s !! l = None
              /\ heap s' !! l = Some {[ "default" := mod_ ]}
              /\ (get_prop r "default" s').1 = Normal mod_
              /\ forall l0, mod_ = VObject l0 \/ mod_ = VFunction l0 ->
                   truthy (lookup_prop s l0 "__esModule") = false)).
Proof.
  assert (Hwrap : forall flag, truthy flag = false ->
    (forall l0, mod_ = VObject l0 \/ mod_ = VFunction l0 ->
       truthy (lookup_prop s l0 "__esModule") = false) ->
    exists r s',
      (if truthy flag then ret mod_
       else bind alloc (fun l => bind (set_prop (VObject l) "default" mod_)
                                   (fun _ => ret (VObject l)))) s = (Normal r, s')
      /\ grown s s'
      /\ ((r = mod_ /\ s' = s
           /\ exists l, (mod_ = VObject l \/ mod_ = VFunction l)
                /\ truthy (lookup_prop s l "__esModule") = true)
          \/ (exists l, r = VObject l
                /\ heap s !! l = None
                /\ heap s' !! l = Some {[ "default" := mod_ ]}
                /\ (get_prop r "default" s').1 = Normal mod_
                /\ forall l0, mod_ = VObject l0 \/ mod_ = VFunction l0 ->
                     truthy (lookup_prop s l0 "__esModule") = false))).
  { intros flag -> Hflag. set (l := fresh (dom (heap s))).
    set (s0 := set_heap (<[l := ∅]> (heap s)) s).
    assert (Hnew : heap s !! l = None) by apply not_elem_of_dom, is_fresh.
    assert (Hown : own_props (heap s0) l !! "default" = None).
    { cbn. by rewrite own_props_insert_eq, lookup_empty. }
    assert (Hattr : attrs s0 !! l = None) by (by apply attrs_set_heap_new).
    assert (Hstore : heap (put_prop l "default" mod_ s0)
                     = <[l := {[ "default" := mod_ ]}]> (heap s)).
    { rewrite heap_put_prop. cbn.
      by rewrite own_props_insert_eq, insert_insert_eq, insert_empty. }
    exists (VObject l), (put_prop l "default" mod_ s0).
    split.
    { unfold bind, alloc, set_prop, ret. fold l. fold s0.
      by rewrite (takes_none s0 l "default" Hown Hattr). }
    split.
    { split; [reflexivity |]. split; [reflexivity |]. split; [reflexivity |].
      rewrite Hstore. intros l' m Hl'. rewrite lookup_insert_ne; [done |].
      intros <-. congruence. }
    right. exists l. split; [done |]. split; [done |].
    split; [by rewrite Hstore, lookup_insert_eq |]. split; [| done].
    unfold get_prop. cbn [fst]. f_equal. apply lookup_prop_own.
    by rewrite Hstore, own_props_insert_eq, lookup_singleton_eq. }
  unfold __importDefault. unfold bind at 1.
  destruct (truthy mod_) eqn:Hmod.
  2: { cbn. apply Hwrap; [done |]. intros l0 [-> | ->]; discriminate. }
  destruct mod_; try discriminate; cbn -[truthy alloc set_prop lookup_prop];
    try (apply Hwrap; [done |]; intros l0 [? | ?]; discriminate).
  - destruct (truthy (lookup_prop s l "__esModule")) eqn:Hflag.
    + eexists _, _. split; [reflexivity |]. split; [apply grown_refl |].
      left. split; [done |]. split; [done |]. exists l. split; [by right | done].
    + pose proof (Hwrap _ Hflag) as Hw. rewrite Hflag in Hw. apply Hw.
      intros l0 [? | Heq]; [discriminate |]. by inversion Heq; subst.
  - destruct (truthy (lookup_prop s l "__esModule")) eqn:Hflag.
    + eexists _, _. split; [reflexivity |]. split; [apply grown_refl |].
      left. split; [done |]. split; [done |]. exists l. split; [by left | done].
    + pose proof (Hwrap _ Hflag) as Hw. rewrite Hflag in Hw. apply Hw.
      intros l0 [Heq | ?]; [| discriminate]. by inversion Heq; subst.
Qed.


End Properties.

(* --------------------------------------------------------------------- *)
(* The statements at concrete inputs                                      *)
(* --------------------------------------------------------------------- *)

Lemma C1_witness :
  (getNetworkFromEnv (Scenario.with_env Scenario.env_unset)).1 = Normal "sandbox"
  /\ (getNetworkFromEnv (Scenario.with_env (Scenario.env_of "testnet"))).1 = Normal "testnet"
  /\ (getNetworkFromEnv (Scenario.with_env (Scenario.env_of "mainnet"))).1
     = Throw (Error (invalid_network_msg "mainnet")).
Proof.
  split; [exact (C1_getNetworkFromEnv (Scenario.with_env Scenario.env_unset)) |].
  split.
  - exact (proj1 (C1_getNetworkFromEnv (Scenario.with_env (Scenario.env_of "testnet")))
             (or_intror eq_refl)).
  - refine (proj2 (C1_getNetworkFromEnv (Scenario.with_env (Scenario.env_of "mainnet"))) _ _);
      discriminate.
Defined.

(* init() with no argument at all: the first argument is undefined, which is
   neither a function nor an object, and yet nothing is thrown. *)
Lemma C2_counterexample :
  typeof VUndefined <> "function" /\ typeof VUndefined <> "object"
  /\ (init (RT := Scenario.counting) VUndefined VUndefined
        (Scenario.with_env Scenario.env_unset)).1
     = Normal (mkWorkspace (Fulfilled tt) (Some (mkContainer 0 (VObject 2%positive)))).
Proof.
  split; [discriminate |]. split; [discriminate |]. vm_compute. reflexivity.
Defined.

Lemma C2_witness :
  ((VString "testnet" <> VUndefined
    /\ typeof (VString "testnet") <> "function" /\ typeof (VString "testnet") <> "object")
   \/ ((VString "testnet" = VUndefined \/ typeof (VString "testnet") = "function")
       /\ typeof Scenario.run_fn <> "undefined"))
  /\ (init (RT := Scenario.counting) (VString "testnet") Scenario.run_fn
        (Scenario.with_config ∅ Scenario.env_unset)).1
     = Throw (Error invalid_arguments_msg).
Proof.
  assert (H : (VString "testnet" <> VUndefined
               /\ typeof (VString "testnet") <> "function"
               /\ typeof (VString "testnet") <> "object")
              \/ ((VString "testnet" = VUndefined \/ typeof (VString "testnet") = "function")
                  /\ typeof Scenario.run_fn <> "undefined")).
  { left. repeat split; discriminate. }
  split; [exact H |].
  exact (proj1 (C2_init_invalid_arguments (RT := Scenario.counting) _ _ _ H)).
Defined.

Lemma C3_witness :
  (getNetworkFromEnv (Scenario.with_config ∅ Scenario.env_unset)).1 = Normal "sandbox"
  /\ getConfigAndFn Scenario.run_fn VUndefined (Scenario.with_config ∅ Scenario.env_unset)
     = (Normal (VObject 3%positive, Scenario.run_fn),
        set_heap (<[3%positive := ∅]> (heap (Scenario.with_config ∅ Scenario.env_unset)))
          (Scenario.with_config ∅ Scenario.env_unset)).
Proof.
  split; [reflexivity |].
  exact (proj1 (proj2 (C3_function_only (RT := Scenario.counting) 2%positive
                         (Scenario.with_config ∅ Scenario.env_unset) "sandbox" eq_refl))).
Defined.

Lemma C5_witness :
  container Scenario.workspace = Some Scenario.root_container
  /\ (get_prop (config Scenario.root_container) "network"
        (Scenario.with_config Scenario.testnet_config Scenario.env_unset)).1
     = Normal (VString "testnet")
  /\ ready Scenario.workspace = Fulfilled tt
  /\ (cloneSandbox (RT := Scenario.counting) Scenario.workspace Scenario.run_fn
        (Scenario.with_config Scenario.testnet_config Scenario.env_unset)).1
     = Normal (Fulfilled None).
Proof.
  split; [reflexivity |]. split; [reflexivity |]. split; [reflexivity |].
  refine (proj2 (proj2 (proj2 (proj2 (proj2
    (C5_cloneSandbox_noop_on_testnet (RT := Scenario.counting) Scenario.workspace
       Scenario.run_fn (Scenario.with_config Scenario.testnet_config Scenario.env_unset)
       Scenario.root_container eq_refl eq_refl))))) eq_refl).
Defined.

(* A frozen configuration object that carries its network: the arguments
   are of an accepted shape and not null, the environment is valid and is
   not even consulted, and init throws all the same. *)
Lemma C6_counterexample :
  accepted_by_init Scenario.cfg Scenario.run_fn
  /\ Scenario.cfg <> VNull
  /\ env_valid (env (Scenario.with_frozen_config Scenario.testnet_config Scenario.env_unset))
  /\ network_missing
       (Scenario.with_frozen_config Scenario.testnet_config Scenario.env_unset)
       Scenario.cfg = false
  /\ init (RT := Scenario.counting) Scenario.cfg Scenario.run_fn
       (Scenario.with_frozen_config Scenario.testnet_config Scenario.env_unset)
     = (Throw TypeError,
        Scenario.with_frozen_config Scenario.testnet_config Scenario.env_unset).
Proof.
  split; [right; split; [reflexivity | by left] |].
  split; [discriminate |]. split; [exact I |].
  split; vm_compute; reflexivity.
Defined.

(* A frozen configuration object: with no network and a valid environment
   nothing is assigned, with a network already set the object does not get
   to the runtime; init throws a TypeError both times. *)
Lemma C8_counterexample :
  heap (Scenario.with_frozen_config ∅ Scenario.env_unset) !! 1%positive = Some ∅
  /\ typeof Scenario.run_fn = "function"
  /\ (getNetworkFromEnv (Scenario.with_frozen_config ∅ Scenario.env_unset)).1
     = Normal "sandbox"
  /\ init (RT := Scenario.counting) Scenario.cfg Scenario.run_fn
       (Scenario.with_frozen_config ∅ Scenario.env_unset)
     = (Throw TypeError, logged read_env (Scenario.with_frozen_config ∅ Scenario.env_unset))
  /\ heap (Scenario.with_frozen_config Scenario.testnet_config Scenario.env_unset)
       !! 1%positive = Some Scenario.testnet_config
  /\ init (RT := Scenario.counting) Scenario.cfg Scenario.run_fn
       (Scenario.with_frozen_config Scenario.testnet_config Scenario.env_unset)
     = (Throw TypeError,
        Scenario.with_frozen_config Scenario.testnet_config Scenario.env_unset).
Proof. repeat split; vm_compute; reflexivity. Defined.

Lemma C8_witness :
  heap (Scenario.with_config Scenario.account_config (Scenario.env_of "testnet"))
    !! 1%positive = Some Scenario.account_config
  /\ (typeof Scenario.run_fn = "function" \/ typeof Scenario.run_fn = "undefined")
  /\ takes (Scenario.with_config Scenario.account_config (Scenario.env_of "testnet"))
       1%positive "network" = true
  /\ lookup_prop (Scenario.with_config Scenario.account_config (Scenario.env_of "testnet"))
       1%positive "network" = VUndefined
  /\ (getNetworkFromEnv
        (Scenario.with_config Scenario.account_config (Scenario.env_of "testnet"))).1
     = Normal "testnet"
  /\ exists ws s',
       init (RT := Scenario.counting) Scenario.cfg Scenario.run_fn
         (Scenario.with_config Scenario.account_config (Scenario.env_of "testnet"))
       = (Normal ws, s')
       /\ heap s' !! 1%positive
          = Some (<["network" := VString "testnet"]> Scenario.account_config).
Proof.
  split; [reflexivity |]. split; [by left |]. split; [reflexivity |].
  split; [reflexivity |]. split; [vm_compute; reflexivity |].
  destruct (proj1 (C8_network_assigned_in_place (RT := Scenario.counting) 1%positive
                     Scenario.account_config Scenario.run_fn
                     (Scenario.with_config Scenario.account_config (Scenario.env_of "testnet"))
                     eq_refl (or_introl eq_refl) eq_refl)
              (or_introl eq_refl) "testnet" eq_refl)
    as (ws & s' & Hinit & Hheap & _).
  exists ws, s'. split; [exact Hinit | exact Hheap].
Defined.

Lemma C10_witness :
  (getNetworkFromEnv (Scenario.with_env (Scenario.env_of "testnet"))).1 = Normal "testnet"
  /\ exists t b,
       (networkIsTestnet (Scenario.with_env (Scenario.env_of "testnet"))).1 = Normal t
       /\ (networkIsSandbox (Scenario.with_env (Scenario.env_of "testnet"))).1 = Normal b
       /\ t = negb b
       /\ (t = true <->
           env (Scenario.with_env (Scenario.env_of "testnet")) !! NEAR_WORKSPACES_NETWORK
           = Some "testnet").
Proof.
  split; [vm_compute; reflexivity |].
  apply (C10_exactly_one_network (Scenario.with_env (Scenario.env_of "testnet")) "testnet").
  vm_compute. reflexivity.
Defined.


Lemma X2_witness :
  getConfigAndFn Scenario.cfg Scenario.run_fn (Scenario.with_config ∅ Scenario.env_unset)
  = (Normal (Scenario.cfg, Scenario.run_fn), Scenario.with_config ∅ Scenario.env_unset)
  /\ typeof Scenario.cfg = "object"
  /\ (typeof Scenario.run_fn = "function" \/ typeof Scenario.run_fn = "undefined").
Proof.
  split; [reflexivity |].
  pose proof (X2_getConfigAndFn_result_shape Scenario.cfg Scenario.run_fn
                (Scenario.with_config ∅ Scenario.env_unset) _ _ _ eq_refl) as H.
  exact (conj (proj1 H) (proj1 (proj2 H))).
Defined.

Lemma X8_witness :
  init (RT := Scenario.counting) Scenario.cfg Scenario.run_fn
    (Scenario.with_config Scenario.account_config (Scenario.env_of "mainnet"))
  = (Throw (Error (invalid_network_msg "mainnet")),
     logged read_env (Scenario.with_config Scenario.account_config (Scenario.env_of "mainnet")))
  /\ world (logged read_env
              (Scenario.with_config Scenario.account_config (Scenario.env_of "mainnet")))
     = world (Scenario.with_config Scenario.account_config (Scenario.env_of "mainnet")).
Proof.
  assert (H : init (RT := Scenario.counting) Scenario.cfg Scenario.run_fn
                (Scenario.with_config Scenario.account_config (Scenario.env_of "mainnet"))
              = (Throw (Error (invalid_network_msg "mainnet")),
                 logged read_env
                   (Scenario.with_config Scenario.account_config (Scenario.env_of "mainnet"))))
    by (vm_compute; reflexivity).
  split; [exact H |].
  exact (proj1 (proj2 (X8_init_throw_leaves_no_trace _ _ _ _ _ H))).
Defined.

Lemma X9_witness :
  init (RT := Scenario.counting) Scenario.cfg Scenario.run_fn Scenario.account_on_testnet
  = (Normal (mkWorkspace (Fulfilled tt) (Some (mkContainer 0 Scenario.cfg))),
     Scenario.after_init)
  /\ exists c fn p,
       (log Scenario.after_init
        = log Scenario.account_on_testnet ++ [EvCreate (VObject c) fn]
        \/ log Scenario.after_init
           = log Scenario.account_on_testnet ++ [read_env; EvCreate (VObject c) fn])
       /\ (typeof fn = "function" \/ typeof fn = "undefined")
       /\ not_nullish (default VUndefined
                         (own_props (heap Scenario.after_init) c !! "network")) = true
       /\ env Scenario.after_init = env Scenario.account_on_testnet
       /\ (forall l m, l <> c -> heap Scenario.account_on_testnet !! l = Some m ->
                       heap Scenario.after_init !! l = Some m)
       /\ rt_create (Runtime := Scenario.counting) (heap Scenario.after_init) (VObject c) fn
            (world Scenario.account_on_testnet)
          = (world Scenario.after_init, p)
       /\ mkWorkspace (Fulfilled tt) (Some (mkContainer 0 Scenario.cfg)) = new_Workspace p.
Proof.
  assert (H : init (RT := Scenario.counting) Scenario.cfg Scenario.run_fn
                Scenario.account_on_testnet
              = (Normal (mkWorkspace (Fulfilled tt) (Some (mkContainer 0 Scenario.cfg))),
                 Scenario.after_init))
    by (vm_compute; reflexivity).
  split; [exact H |].
  exact (X9_init_return_postcondition _ _ _ _ _ H).
Defined.

Lemma X10_witness :
  init (RT := Scenario.counting) Scenario.cfg Scenario.run_fn Scenario.account_on_testnet
  = (Normal (mkWorkspace (Fulfilled tt) (Some (mkContainer 0 Scenario.cfg))),
     Scenario.after_init)
  /\ (typeof VUndefined = "function" \/ typeof VUndefined = "undefined")
  /\ exists ws' s'',
       init (RT := Scenario.counting) Scenario.cfg VUndefined
         (set_env (Scenario.env_of "mainnet") Scenario.after_init)
       = (Normal ws', s'')
       /\ heap s'' = heap Scenario.after_init
       /\ log s'' = log Scenario.after_init ++ [EvCreate Scenario.cfg VUndefined].
Proof.
  assert (H : init (RT := Scenario.counting) Scenario.cfg Scenario.run_fn
                Scenario.account_on_testnet
              = (Normal (mkWorkspace (Fulfilled tt) (Some (mkContainer 0 Scenario.cfg))),
                 Scenario.after_init))
    by (vm_compute; reflexivity).
  split; [exact H |]. split; [by right |].
  exact (X10_init_pins_network 1%positive _ _ _ _ H (Scenario.env_of "mainnet")
           VUndefined (or_intror eq_refl)).
Defined.

Lemma X13_witness :
  (clone (RT := Scenario.failing) (new_Workspace (Fulfilled Scenario.root_container))
     Scenario.run_fn (Scenario.with_config Scenario.sandbox_config Scenario.env_unset)).1
  = Normal (Rejected (RuntimeError 1))
  /\ (Fulfilled Scenario.root_container = Rejected (RuntimeError 1)
      \/ exists c, Fulfilled Scenario.root_container = Fulfilled c
           /\ ((rt_createFrom (Runtime := Scenario.failing) c 0).2 = Rejected (RuntimeError 1)
               \/ exists d, (rt_createFrom (Runtime := Scenario.failing) c 0).2 = Fulfilled d
                    /\ (rt_clone (Runtime := Scenario.failing) d Scenario.run_fn
                          (rt_createFrom (Runtime := Scenario.failing) c 0).1).2
                       = Rejected (RuntimeError 1))).
Proof.
  split; [reflexivity |].
  exact (X13_clone_rejection_provenance (RT := Scenario.failing)
           (Fulfilled Scenario.root_container) Scenario.run_fn
           (Scenario.with_config Scenario.sandbox_config Scenario.env_unset)
           (RuntimeError 1) eq_refl).
Defined.

Lemma X14_witness :
  ready Scenario.workspace = Fulfilled tt
  /\ container Scenario.workspace = Some Scenario.root_container
  /\ (get_prop (config Scenario.root_container) "network"
        (Scenario.with_config Scenario.sandbox_config Scenario.env_unset)).1
     = Normal (VString "sandbox")
  /\ exists p s',
       clone (RT := Scenario.counting) Scenario.workspace Scenario.run_fn
         (logged EvAwaitReady (Scenario.with_config Scenario.sandbox_config Scenario.env_unset))
       = (Normal p, s')
       /\ cloneSandbox (RT := Scenario.counting) Scenario.workspace Scenario.run_fn
            (Scenario.with_config Scenario.sandbox_config Scenario.env_unset)
          = (Normal (promise_map Some p), s').
Proof.
  split; [reflexivity |]. split; [reflexivity |]. split; [reflexivity |].
  exact (X14_cloneSandbox_is_clone_on_sandbox (RT := Scenario.counting) Scenario.workspace
           Scenario.run_fn (Scenario.with_config Scenario.sandbox_config Scenario.env_unset)
           Scenario.root_container eq_refl eq_refl eq_refl).
Defined.

Lemma X16_witness :
  ready (new_Workspace (Fulfilled (mkContainer 0 VNull))) = Fulfilled tt
  /\ container (new_Workspace (Fulfilled (mkContainer 0 VNull))) = Some (mkContainer 0 VNull)
  /\ (config (mkContainer 0 VNull) = VNull \/ config (mkContainer 0 VNull) = VUndefined)
  /\ cloneSandbox (RT := Scenario.counting) (new_Workspace (Fulfilled (mkContainer 0 VNull)))
       Scenario.run_fn (Scenario.with_env Scenario.env_unset)
     = (Normal (Rejected TypeError), logged EvAwaitReady (Scenario.with_env Scenario.env_unset)).
Proof.
  split; [reflexivity |]. split; [reflexivity |]. split; [by left |].
  exact (X16_cloneSandbox_without_config (RT := Scenario.counting)
           (new_Workspace (Fulfilled (mkContainer 0 VNull))) Scenario.run_fn
           (Scenario.with_env Scenario.env_unset) (mkContainer 0 VNull)
           eq_refl eq_refl (or_introl eq_refl)).
Defined.
